(** * flask_security.datastore: user/role datastore, embedded and verified

    The development follows [flask_security/datastore.py]:

    - [Datastore] / [NDBDatastore]: the [put] / [delete] / [commit] primitives;
    - [UserDatastore]: the backend-independent operations, written against the
      abstract methods [find_user], [find_role], [get_user], [put];
    - [NDBUserDatastore]: the Google-Cloud-Datastore backend, which stores a
      user's roles as a denormalized list of role names.

    Python objects are mutated in place; here every operation takes the
    object's current value and returns its value after the call, next to the
    backend state (explicit state passing).  Exceptions are results. *)

From Stdlib Require Import List String Ascii ZArith Bool Arith Lia.
Import ListNotations.
Open Scope string_scope.
Open Scope list_scope.

(** ** Python results and the state-and-exception monad *)

Inductive exn : Type :=
| AttributeError
| NotImplementedError
| ValueError
| KeyError
| NameError.

Inductive result (A : Type) : Type :=
| Ok (a : A)
| Raise (e : exn).
Arguments Ok {A} a.
Arguments Raise {A} e.

(** A computation over a backend state [W]: it yields a value or raises, and
    in both cases leaves a state behind (an exception rolls nothing back). *)
Definition St (W A : Type) : Type := W -> result A * W.

Definition ret {W A : Type} (a : A) : St W A := fun w => (Ok a, w).

Definition raise {W A : Type} (e : exn) : St W A := fun w => (Raise e, w).

Definition bind {W A B : Type} (m : St W A) (k : A -> St W B) : St W B :=
  fun w => match m w with
           | (Ok a, w') => k a w'
           | (Raise e, w') => (Raise e, w')
           end.

Definition gets {W A : Type} (f : W -> A) : St W A := fun w => (Ok (f w), w).

Notation "x <- m ;; k" := (bind m (fun x => k))
  (at level 61, m at next level, right associativity).
Notation "' p <- m ;; k" := (bind m (fun x => let p := x in k))
  (at level 61, p pattern, m at next level, right associativity).

(** [o.attr] on a value that may be [None]: reading an attribute of [None]
    raises [AttributeError]. *)
Definition getattr {W A B : Type} (o : option A) (attr : A -> B) : St W B :=
  match o with
  | Some a => ret (attr a)
  | None => raise AttributeError
  end.

(** [for x in l: ... f(x)] collecting the results, left to right. *)
Fixpoint mapM {W A B : Type} (f : A -> St W B) (l : list A) : St W (list B) :=
  match l with
  | [] => ret []
  | x :: l' => y <- f x ;; ys <- mapM f l' ;; ret (y :: ys)
  end.

(** ** Python list and string primitives used by the module *)

(** [x in l], for an equality test [eqb x]. *)
Definition py_in {A : Type} (eqb : A -> bool) (l : list A) : bool := existsb eqb l.

(** [l.remove(x)]: drops the first element equal to [x]; [ValueError] when
    there is none. *)
Fixpoint py_remove {A : Type} (eqb : A -> bool) (l : list A) : option (list A) :=
  match l with
  | [] => None
  | y :: l' => if eqb y then Some l'
               else match py_remove eqb l' with
                    | Some r => Some (y :: r)
                    | None => None
                    end
  end.

Definition list_remove {W A : Type} (eqb : A -> bool) (l : list A) : St W (list A) :=
  match py_remove eqb l with
  | Some r => ret r
  | None => raise ValueError
  end.

(** How many elements of [l] are equal to the searched one. *)
Definition occurrences {A : Type} (eqb : A -> bool) (l : list A) : nat :=
  List.length (filter eqb l).

(** [str.lower()] on byte strings: only the letters [A]..[Z] change. *)
Definition lower_ascii (c : ascii) : ascii :=
  let n := nat_of_ascii c in
  if (65 <=? n)%nat && (n <=? 90)%nat then ascii_of_nat (n + 32) else c.

Fixpoint lower (s : string) : string :=
  match s with
  | EmptyString => EmptyString
  | String c s' => String (lower_ascii c) (lower s')
  end.

(** Truthiness of the values the module tests with [if x:]. *)
Definition truthy_str (s : option string) : bool :=
  match s with
  | Some s => negb (String.eqb s "")
  | None => false
  end.

Definition truthy_int (i : option Z) : bool :=
  match i with
  | Some i => negb (Z.eqb i 0)
  | None => false
  end.

(** ** Data model *)

(** The id part of an entity key: an allocated integer or a chosen string. *)
Inductive key_id : Type :=
| IntId (i : Z)
| StrId (s : string).

Definition key_id_eqb (a b : key_id) : bool :=
  match a, b with
  | IntId i, IntId j => Z.eqb i j
  | StrId s, StrId t => String.eqb s t
  | _, _ => false
  end.

Definition key_eqb (a b : option key_id) : bool :=
  match a, b with
  | Some x, Some y => key_id_eqb x y
  | _, _ => false
  end.

(** A user.  [membership] is the user's role collection; its representation
    [C] is the backend's choice: a list of role references ([user.roles]) or
    a list of role names ([user.role_names]). *)
Record User (C : Type) : Type := mkUser {
  key : option key_id;
  email : option string;
  username : option string;
  password : option string;
  active : bool;
  membership : C
}.
Arguments mkUser {C}.
Arguments key {C}.
Arguments email {C}.
Arguments username {C}.
Arguments password {C}.
Arguments active {C}.
Arguments membership {C}.

Definition set_key {C : Type} (k : option key_id) (u : User C) : User C :=
  mkUser k (email u) (username u) (password u) (active u) (membership u).

Definition set_active {C : Type} (b : bool) (u : User C) : User C :=
  mkUser (key u) (email u) (username u) (password u) b (membership u).

Definition set_membership {C D : Type} (c : D) (u : User C) : User D :=
  mkUser (key u) (email u) (username u) (password u) (active u) c.

(** The keyword arguments of [create_user]; [None] is an absent keyword.
    [A] is the type of the entries of [roles]. *)
Record UserKw (A : Type) : Type := mkUserKw {
  kw_email : option string;
  kw_username : option string;
  kw_password : option string;
  kw_active : option bool;
  kw_roles : option (list A)
}.
Arguments mkUserKw {A}.
Arguments kw_email {A}.
Arguments kw_username {A}.
Arguments kw_password {A}.
Arguments kw_active {A}.
Arguments kw_roles {A}.

(** The keyword arguments of [create_role]. *)
Record RoleKw : Type := mkRoleKw {
  kw_name : string;
  kw_description : option string
}.

(** An argument that is either an entity instance or a string naming it. *)
Inductive str_or (A : Type) : Type :=
| Inst (a : A)
| Str (s : string).
Arguments Inst {A} a.
Arguments Str {A} s.

(** The argument of [get_user]: an integer, that is an instance of what the
    module calls [long] (the built-in [long], or [int] where the module
    rebinds the name); a string ([string_types]); or any other value. *)
Inductive pyval : Type :=
| PyLong (i : Z)
| PyStr (s : string)
| PyNone.

(** ** The model and backend interfaces *)

(** [role_model]: the role class handed to the datastore.  [role_model kw]
    builds a role from keyword arguments, [role_name r] is [r.name]. *)
Class RoleModel (R : Type) : Type := {
  role_model : RoleKw -> R;
  role_name : R -> string
}.

(** [a == b] on roles, as the role class defines it (its [__eq__] is not part
    of this module and is taken as given). *)
Class RoleEq (R : Type) : Type := role_eq : R -> R -> bool.

(** The methods [UserDatastore] leaves to a backend ([get_user], [find_user],
    [find_role]) together with the [Datastore] primitives it is mixed with
    ([put], [delete]).  [put] yields the model it was given, as the backend
    left it (a first [put] may complete its key). *)
Class Backend (W C R : Type) : Type := {
  get_user : pyval -> St W (option (User C));
  find_user : option string -> option Z -> St W (option (User C));
  find_role : string -> St W (option R);
  put_user : User C -> St W (User C);
  put_role : R -> St W R;
  delete : User C -> St W unit
}.

(** [Datastore.commit]: [pass]. *)
Definition commit {W : Type} : St W unit := ret tt.

(** The base classes on their own: every abstract method raises
    [NotImplementedError]. *)
Definition abstract_backend (W C R : Type) : Backend W C R := {|
  get_user := fun _ => raise NotImplementedError;
  find_user := fun _ _ => raise NotImplementedError;
  find_role := fun _ => raise NotImplementedError;
  put_user := fun _ => raise NotImplementedError;
  put_role := fun _ => raise NotImplementedError;
  delete := fun _ => raise NotImplementedError
|}.

(** ** [UserDatastore]: the backend-independent operations *)

Module UserDatastore.

Section Shared.
Context {W C R : Type} {RM : RoleModel R} {B : Backend W C R}.

Definition _prepare_role_modify_args (user : str_or (User C)) (role : str_or R)
  : St W (option (User C) * option R) :=
  user <- match user with
          | Str s => find_user (Some s) None
          | Inst u => ret (Some u)
          end ;;
  role <- match role with
          | Str s => find_role s
          | Inst r => ret (Some r)
          end ;;
  ret (user, role).

Definition _prepare_create_user_args (kwargs : UserKw (str_or R))
  : St W (UserKw (option R)) :=
  let active := match kw_active kwargs with
                | Some b => Some b
                | None => Some true
                end in
  let roles := match kw_roles kwargs with
               | Some l => l
               | None => []
               end in
  roles <- mapM (fun role =>
                   let rn := match role with
                             | Inst r => role_name r
                             | Str s => s
                             end in
                   find_role rn) roles ;;
  ret (mkUserKw (kw_email kwargs) (kw_username kwargs) (kw_password kwargs)
                active (Some roles)).

Definition toggle_active (user : User C) : St W (bool * User C) :=
  let user := set_active (negb (active user)) user in
  ret (true, user).

Definition deactivate_user (user : User C) : St W (bool * User C) :=
  if active user then
    let user := set_active false user in
    ret (true, user)
  else ret (false, user).

Definition activate_user (user : User C) : St W (bool * User C) :=
  if negb (active user) then
    let user := set_active true user in
    ret (true, user)
  else ret (false, user).

Definition create_role (kwargs : RoleKw) : St W R :=
  let role := role_model kwargs in
  put_role role.

Definition find_or_create_role (name : string) (kwargs : RoleKw) : St W R :=
  let kwargs := mkRoleKw name (kw_description kwargs) in
  found <- find_role name ;;
  match found with
  | Some role => ret role
  | None => create_role kwargs
  end.

Definition delete_user (user : User C) : St W unit := delete user.

End Shared.

(** The operations on the role collection, for a user model whose
    [user.roles] is a list of role references (an unresolved lookup leaves
    [None] in it). *)
Section ByReference.
Context {W R : Type} {RM : RoleModel R} {RE : RoleEq R}
        {B : Backend W (list (option R)) R}.

Definition roles (u : User (list (option R))) : list (option R) := membership u.

(** [el == x] between two entries of [user.roles]. *)
Definition ref_eqb (x el : option R) : bool :=
  match el, x with
  | Some a, Some b => role_eq a b
  | None, None => true
  | _, _ => false
  end.

(** The user class called with the prepared keyword arguments. *)
Definition user_model (kwargs : UserKw (option R)) : User (list (option R)) :=
  mkUser None (kw_email kwargs) (kw_username kwargs) (kw_password kwargs)
         (match kw_active kwargs with Some b => b | None => false end)
         (match kw_roles kwargs with Some l => l | None => [] end).

(** [role not in user.roles] first reads [user.roles], which raises on an
    unresolved user; past that point the user is an object. *)
Definition add_role_to_user (user : str_or (User (list (option R)))) (role : str_or R)
  : St W (bool * User (list (option R))) :=
  '(user, role) <- _prepare_role_modify_args user role ;;
  user_roles <- getattr user roles ;;
  user <- getattr user id ;;
  if negb (py_in (ref_eqb role) user_roles) then
    let user := set_membership (user_roles ++ [role]) user in
    user <- put_user user ;;
    ret (true, user)
  else ret (false, user).

Definition remove_role_from_user (user : str_or (User (list (option R)))) (role : str_or R)
  : St W (bool * User (list (option R))) :=
  let rv := false in
  '(user, role) <- _prepare_role_modify_args user role ;;
  user_roles <- getattr user roles ;;
  user <- getattr user id ;;
  if py_in (ref_eqb role) user_roles then
    let rv := true in
    user_roles <- list_remove (ref_eqb role) user_roles ;;
    let user := set_membership user_roles user in
    user <- put_user user ;;
    ret (rv, user)
  else ret (rv, user).

Definition create_user (kwargs : UserKw (str_or R)) : St W (User (list (option R))) :=
  kwargs <- _prepare_create_user_args kwargs ;;
  let user := user_model kwargs in
  put_user user.

End ByReference.

End UserDatastore.

(** ** The NDB backend: [NDBDatastore] and [NDBUserDatastore] *)

Module NDBUserDatastore.

(** The role model of the NDB backend: a name and a description, keyed by the
    name when it is non-empty. *)
Record Role : Type := mkRole {
  role_key : option key_id;
  name : string;
  description : option string
}.

(** The user model of the NDB backend keeps the names of the user's roles. *)
Definition NUser : Type := User (list string).

Definition role_names (u : NUser) : list string := membership u.

(** Calls that reach the persistence layer, in order. *)
Inductive event : Type :=
| EvPutUser (k : key_id)
| EvPutRole (k : key_id)
| EvDelete (k : key_id).

(** The datastore: the stored entities of both kinds in query order, the
    next integer id to allocate, and the trace of persistence calls.  With
    it goes the one piece of module state the operations share:
    [long_bound] says whether the module-level name [long] resolves.  It
    always does where [long] is a built-in; where it is not, the name is
    bound by [get_user] ([long = int]) and by nothing else. *)
Record Store : Type := mkStore {
  users : list NUser;
  roles : list Role;
  next_id : Z;
  log : list event;
  long_bound : bool
}.

(** [ndb.put] of an entity with a complete key: the stored entity with that
    key is replaced, or the entity is added. *)
Fixpoint upsert {E : Type} (key_of : E -> option key_id) (e : E) (l : list E) : list E :=
  match l with
  | [] => [e]
  | x :: l' => if key_eqb (key_of x) (key_of e) then e :: l'
               else x :: upsert key_of e l'
  end.

(** [user.put()]: an entity without a key gets the next integer id. *)
Definition user_put (u : NUser) : St Store NUser := fun st =>
  match key u with
  | Some k =>
      (Ok u, mkStore (upsert key u (users st)) (roles st) (next_id st)
                     (log st ++ [EvPutUser k]) (long_bound st))
  | None =>
      let k := IntId (next_id st) in
      let u := set_key (Some k) u in
      (Ok u, mkStore (upsert key u (users st)) (roles st) (next_id st + 1)
                     (log st ++ [EvPutUser k]) (long_bound st))
  end.

Definition role_put (r : Role) : St Store Role := fun st =>
  match role_key r with
  | Some k =>
      (Ok r, mkStore (users st) (upsert role_key r (roles st)) (next_id st)
                     (log st ++ [EvPutRole k]) (long_bound st))
  | None =>
      let k := IntId (next_id st) in
      let r := mkRole (Some k) (name r) (description r) in
      (Ok r, mkStore (users st) (upsert role_key r (roles st)) (next_id st + 1)
                     (log st ++ [EvPutRole k]) (long_bound st))
  end.

(** [NDBDatastore.put]: [model.put(); return model]. *)
Definition put_user (model : NUser) : St Store NUser := user_put model.

Definition put_role (model : Role) : St Store Role := role_put model.

(** [NDBDatastore.delete]: [model.key.delete()]. *)
Definition delete (model : NUser) : St Store unit :=
  k <- getattr (key model) id ;;
  fun st =>
    (Ok tt, mkStore (filter (fun u => negb (key_eqb (key u) (Some k))) (users st))
                    (roles st) (next_id st) (log st ++ [EvDelete k])
                    (long_bound st)).

(** A string property compared with a value in a query filter. *)
Definition prop_eqb (p : option string) (v : string) : bool :=
  match p with
  | Some s => String.eqb s v
  | None => false
  end.

(** [Model.get_by_id(i)]: the primary-key fetch, the stored user whose key
    has the integer id [i]. *)
Definition get_by_id (i : Z) (st : Store) : option NUser :=
  find (fun u => key_eqb (key u) (Some (IntId i))) (users st).

(** [Model.query(filter).get()]: the first entity the filter accepts. *)
Definition query_email (e : string) (st : Store) : option NUser :=
  find (fun u => prop_eqb (email u) e) (users st).

Definition query_username (n : string) (st : Store) : option NUser :=
  find (fun u => prop_eqb (username u) n) (users st).

Definition query_role_name (n : string) (st : Store) : option Role :=
  find (fun r => String.eqb (name r) n) (roles st).

(** The role class of the test suite: the key is the name when the name is
    truthy. *)
Definition Role_init (kwargs : RoleKw) : Role :=
  mkRole (if truthy_str (Some (kw_name kwargs)) then Some (StrId (kw_name kwargs)) else None)
         (kw_name kwargs) (kw_description kwargs).

(** The user class of the test suite: a [roles] list becomes [role_names]. *)
Definition user_model (kwargs : UserKw string) : NUser :=
  mkUser None (kw_email kwargs) (kw_username kwargs) (kw_password kwargs)
         (match kw_active kwargs with Some b => b | None => false end)
         (match kw_roles kwargs with Some l => l | None => [] end).

(** The store once the name [long] is bound; nothing else differs. *)
Definition bind_long (st : Store) : Store :=
  mkStore (users st) (roles st) (next_id st) (log st) true.

(** [get_user] opens with [global long] and, where [long] is not a built-in,
    [long = int]: from then on the name resolves.  [if user:] holds for
    every entity, so each query returns as soon as it finds one. *)
Definition get_user (id_or_email : pyval) : St Store (option NUser) :=
  _ <- (fun st => (Ok tt, bind_long st)) ;;
  match id_or_email with
  | PyLong model_id =>
      user <- gets (get_by_id model_id) ;;
      ret user
  | PyStr s =>
      let email_or_username := lower s in
      user <- gets (query_email email_or_username) ;;
      match user with
      | Some u => ret (Some u)
      | None =>
          user <- gets (query_username email_or_username) ;;
          match user with
          | Some u => ret (Some u)
          | None => ret None
          end
      end
  | PyNone => ret None
  end.

(** [find_user(email=None, id=None)].  [long(id)] reads the module-level
    name [long]: [NameError] while it is not bound, the integer itself once
    it is. *)
Definition find_user (email : option string) (id : option Z) : St Store (option NUser) :=
  if truthy_int id then
    match id with
    | Some i =>
        bound <- gets long_bound ;;
        if bound then gets (get_by_id i) else raise NameError
    | None => ret None
    end
  else if truthy_str email then
    match email with
    | Some e => let email := lower e in gets (query_email email)
    | None => ret None
    end
  else ret None.

Definition find_role (role_name : string) : St Store (option Role) :=
  gets (query_role_name role_name).

#[global] Instance ndb_role_model : RoleModel Role := {|
  role_model := Role_init;
  role_name := name
|}.

#[global] Instance ndb_backend : Backend Store (list string) Role :=
  Build_Backend Store (list string) Role
    get_user find_user find_role put_user put_role delete.

(** [[r.name for r in roles]]: reading the name of [None] raises. *)
Definition names_of (roles : list (option Role)) : St Store (list string) :=
  mapM (fun r => getattr r name) roles.

Definition create_user (kwargs : UserKw (str_or Role)) : St Store NUser :=
  kwargs <- UserDatastore._prepare_create_user_args kwargs ;;
  roles <- match kw_roles kwargs with
           | Some l => ret l
           | None => raise KeyError
           end ;;
  role_names <- names_of roles ;;
  let kwargs := mkUserKw (kw_email kwargs) (kw_username kwargs) (kw_password kwargs)
                         (kw_active kwargs) (Some role_names) in
  let user := user_model kwargs in
  put_user user.

(** In [role.name in user.role_names] the name of the role is read first,
    then the names of the user; either read raises on [None]. *)
Definition add_role_to_user (user : str_or NUser) (role : str_or Role)
  : St Store (bool * NUser) :=
  '(user, role) <- UserDatastore._prepare_role_modify_args user role ;;
  rname <- getattr role name ;;
  names <- getattr user role_names ;;
  user <- getattr user id ;;
  if py_in (String.eqb rname) names then ret (false, user)
  else
    let user := set_membership (names ++ [rname]) user in
    user <- user_put user ;;
    ret (true, user).

Definition remove_role_from_user (user : str_or NUser) (role : str_or Role)
  : St Store (bool * NUser) :=
  '(user, role) <- UserDatastore._prepare_role_modify_args user role ;;
  rname <- getattr role name ;;
  names <- getattr user role_names ;;
  user <- getattr user id ;;
  if py_in (String.eqb rname) names then
    names <- list_remove (String.eqb rname) names ;;
    let user := set_membership names user in
    user <- user_put user ;;
    ret (true, user)
  else ret (false, user).

(** The operations the backend inherits from [UserDatastore]. *)
Definition toggle_active : NUser -> St Store (bool * NUser) :=
  UserDatastore.toggle_active.
Definition deactivate_user : NUser -> St Store (bool * NUser) :=
  UserDatastore.deactivate_user.
Definition activate_user : NUser -> St Store (bool * NUser) :=
  UserDatastore.activate_user.
Definition create_role : RoleKw -> St Store Role :=
  UserDatastore.create_role.
Definition find_or_create_role : string -> RoleKw -> St Store Role :=
  UserDatastore.find_or_create_role.
Definition delete_user : NUser -> St Store unit :=
  UserDatastore.delete_user.

(** [User.has_role] of the test suite's user class. *)
Definition has_role (u : NUser) (role_name : string) : bool :=
  if py_in (String.eqb role_name) (role_names u) then true else false.

End NDBUserDatastore.

(** ** A by-reference backend kept in memory

    [UserDatastore] is abstract; this small backend supplies its methods so
    that the statements about the generic operations can be run on concrete
    values.  Roles compare by name. *)

Module MemoryDatastore.

Definition MRole : Type := NDBUserDatastore.Role.
Definition MUser : Type := User (list (option MRole)).

Record World : Type := mkWorld {
  m_users : list MUser;
  m_roles : list MRole
}.

#[global] Instance mem_role_eq : RoleEq MRole :=
  fun a b => String.eqb (NDBUserDatastore.name a) (NDBUserDatastore.name b).

Definition mem_find_user (e : option string) (i : option Z) : St World (option MUser) :=
  match e with
  | Some e => gets (fun w => find (fun u => NDBUserDatastore.prop_eqb (email u) e) (m_users w))
  | None => ret None
  end.

Definition mem_find_role (n : string) : St World (option MRole) :=
  gets (fun w => find (fun r => String.eqb (NDBUserDatastore.name r) n) (m_roles w)).

Definition mem_put_user (u : MUser) : St World MUser :=
  fun w => (Ok u, mkWorld (u :: m_users w) (m_roles w)).

Definition mem_put_role (r : MRole) : St World MRole :=
  fun w => (Ok r, mkWorld (m_users w) (r :: m_roles w)).

#[global] Instance mem_backend : Backend World (list (option MRole)) MRole :=
  Build_Backend World (list (option MRole)) MRole
    (fun _ => ret None) mem_find_user mem_find_role mem_put_user mem_put_role
    (fun _ => ret tt).

End MemoryDatastore.

(** ** Vocabulary of the statements *)

(** Every role occurs at most once in a list of role names. *)
Definition names_at_most_once (l : list string) : Prop :=
  forall n, (occurrences (String.eqb n) l <= 1)%nat.

(** Every role occurs at most once in a by-reference role collection. *)
Definition refs_at_most_once {R : Type} {RE : RoleEq R} (l : list (option R)) : Prop :=
  forall x, (occurrences (UserDatastore.ref_eqb x) l <= 1)%nat.

(** The role class's [==] is an equivalence. *)
Definition role_eq_equiv (R : Type) {RE : RoleEq R} : Prop :=
  (forall a, role_eq a a = true) /\
  (forall a b, role_eq a b = true -> role_eq b a = true) /\
  (forall a b c, role_eq a b = true -> role_eq b c = true -> role_eq a c = true).

(** [put] hands the model back with its role collection as it was given. *)
Definition put_keeps_roles {W R : Type} (B : Backend W (list (option R)) R) : Prop :=
  forall u w u' w', put_user u w = (Ok u', w') -> membership u' = membership u.

(** The name a [roles] entry of [create_user] is looked up by. *)
Definition entry_name {R : Type} {RM : RoleModel R} (role : str_or R) : string :=
  match role with
  | Inst r => role_name r
  | Str s => s
  end.

(** What a user or role argument of the NDB backend stands for once
    [_prepare_role_modify_args] has looked the strings up. *)
Definition resolved_user (user : str_or NDBUserDatastore.NUser)
  (st : NDBUserDatastore.Store) : option NDBUserDatastore.NUser :=
  match user with
  | Inst u => Some u
  | Str e => if String.eqb e "" then None
             else NDBUserDatastore.query_email (lower e) st
  end.

Definition resolved_role (role : str_or NDBUserDatastore.Role)
  (st : NDBUserDatastore.Store) : option NDBUserDatastore.Role :=
  match role with
  | Inst r => Some r
  | Str n => NDBUserDatastore.query_role_name n st
  end.

(** How many stored roles carry the name [n]. *)
Definition roles_named (n : string) (st : NDBUserDatastore.Store) : nat :=
  occurrences (fun r => String.eqb (NDBUserDatastore.name r) n) (NDBUserDatastore.roles st).

(** The value an operation returns next to the user it persisted. *)
Definition returning {W A B : Type} (b : B) (r : result A * W) : result (B * A) * W :=
  match r with
  | (Ok a, w) => (Ok (b, a), w)
  | (Raise e, w) => (Raise e, w)
  end.

(** The public operations of the NDB backend that act on one user, and the
    states of that user and of the store they lead through. *)
Inductive ndb_call : Type :=
| CallAdd (role : str_or NDBUserDatastore.Role)
| CallRemove (role : str_or NDBUserDatastore.Role)
| CallToggle
| CallActivate
| CallDeactivate.

Definition ndb_run_call (c : ndb_call) (u : NDBUserDatastore.NUser)
  : St NDBUserDatastore.Store (bool * NDBUserDatastore.NUser) :=
  match c with
  | CallAdd role => NDBUserDatastore.add_role_to_user (Inst u) role
  | CallRemove role => NDBUserDatastore.remove_role_from_user (Inst u) role
  | CallToggle => NDBUserDatastore.toggle_active u
  | CallActivate => NDBUserDatastore.activate_user u
  | CallDeactivate => NDBUserDatastore.deactivate_user u
  end.

Inductive ndb_reaches :
  NDBUserDatastore.NUser * NDBUserDatastore.Store ->
  NDBUserDatastore.NUser * NDBUserDatastore.Store -> Prop :=
| reaches_here (s : NDBUserDatastore.NUser * NDBUserDatastore.Store) :
    ndb_reaches s s
| reaches_call (c : ndb_call) (b : bool)
    (u u' : NDBUserDatastore.NUser) (st st' : NDBUserDatastore.Store)
    (s : NDBUserDatastore.NUser * NDBUserDatastore.Store) :
    ndb_run_call c u st = (Ok (b, u'), st') ->
    ndb_reaches (u', st') s ->
    ndb_reaches (u, st) s.

(** The [roles] entries [create_user] was given (none when the keyword is
    absent). *)
Definition requested_roles {A : Type} (kwargs : UserKw A) : list A :=
  match kw_roles kwargs with
  | Some l => l
  | None => []
  end.

(** Whether the lookup of a [roles] entry finds a stored role. *)
Definition resolves (st : NDBUserDatastore.Store)
  (role : str_or NDBUserDatastore.Role) : bool :=
  match NDBUserDatastore.query_role_name (entry_name role) st with
  | Some _ => true
  | None => false
  end.

(** The keyword arguments with every [roles] entry replaced by the name it
    is looked up by. *)
Definition by_name {R : Type} {RM : RoleModel R} (kwargs : UserKw (str_or R))
  : UserKw (str_or R) :=
  mkUserKw (kw_email kwargs) (kw_username kwargs) (kw_password kwargs)
           (kw_active kwargs)
           (match kw_roles kwargs with
            | Some l => Some (map (fun role => Str (entry_name role)) l)
            | None => None
            end).

(** Every stored user has a key and no two stored users share one. *)
Definition users_keyed (st : NDBUserDatastore.Store) : Prop :=
  Forall (fun u : NDBUserDatastore.NUser => key u <> None) (NDBUserDatastore.users st) /\
  NoDup (map key (NDBUserDatastore.users st)).

(** A call of any public operation of the NDB backend, and the store it
    leaves behind (whether it returns or raises). *)
Inductive ndb_op : Type :=
| OpGetUser (x : pyval)
| OpFindUser (email : option string) (id : option Z)
| OpFindRole (n : string)
| OpCreateRole (kwargs : RoleKw)
| OpFindOrCreateRole (n : string) (kwargs : RoleKw)
| OpCreateUser (kwargs : UserKw (str_or NDBUserDatastore.Role))
| OpDeleteUser (u : NDBUserDatastore.NUser)
| OpAddRole (user : str_or NDBUserDatastore.NUser) (role : str_or NDBUserDatastore.Role)
| OpRemoveRole (user : str_or NDBUserDatastore.NUser) (role : str_or NDBUserDatastore.Role)
| OpToggle (u : NDBUserDatastore.NUser)
| OpActivate (u : NDBUserDatastore.NUser)
| OpDeactivate (u : NDBUserDatastore.NUser).

Definition ndb_store_after (op : ndb_op) (st : NDBUserDatastore.Store)
  : NDBUserDatastore.Store :=
  match op with
  | OpGetUser x => snd (NDBUserDatastore.get_user x st)
  | OpFindUser e i => snd (NDBUserDatastore.find_user e i st)
  | OpFindRole n => snd (NDBUserDatastore.find_role n st)
  | OpCreateRole kwargs => snd (NDBUserDatastore.create_role kwargs st)
  | OpFindOrCreateRole n kwargs => snd (NDBUserDatastore.find_or_create_role n kwargs st)
  | OpCreateUser kwargs => snd (NDBUserDatastore.create_user kwargs st)
  | OpDeleteUser u => snd (NDBUserDatastore.delete_user u st)
  | OpAddRole user role => snd (NDBUserDatastore.add_role_to_user user role st)
  | OpRemoveRole user role => snd (NDBUserDatastore.remove_role_from_user user role st)
  | OpToggle u => snd (NDBUserDatastore.toggle_active u st)
  | OpActivate u => snd (NDBUserDatastore.activate_user u st)
  | OpDeactivate u => snd (NDBUserDatastore.deactivate_user u st)
  end.

Fixpoint ndb_store_after_all (ops : list ndb_op) (st : NDBUserDatastore.Store)
  : NDBUserDatastore.Store :=
  match ops with
  | [] => st
  | op :: ops' => ndb_store_after_all ops' (ndb_store_after op st)
  end.

(** ** Sample data *)

Module Sample.
Import NDBUserDatastore.

Definition admin : Role := mkRole (Some (StrId "admin")) "admin" None.

Definition alice : NUser :=
  mkUser (Some (IntId 3)) (Some "alice@x.com") (Some "alice") None false ["admin"].

Definition bob : NUser :=
  mkUser (Some (IntId 7)) (Some "a@x.com") (Some "bob") None true [].

Definition empty_store : Store := mkStore [] [] 1 [] false.

Definition store : Store := mkStore [alice; bob] [admin] 8 [] false.

(** A user stored with an empty email address. *)
Definition blank : NUser := mkUser (Some (IntId 9)) (Some "") (Some "blank") None true [].

Definition store_blank : Store := mkStore [blank] [] 10 [] false.

Definition mbob : MemoryDatastore.MUser :=
  mkUser None (Some "a@x.com") (Some "bob") None true [].

Definition world : MemoryDatastore.World := MemoryDatastore.mkWorld [] [admin].

(** A user stored with capital letters in the email address. *)
Definition carol : NUser :=
  mkUser (Some (IntId 4)) (Some "Carol@X.com") (Some "carol") None true [].

Definition store_carol : Store := mkStore [carol] [admin] 5 [] false.

Definition editor_kw : RoleKw := mkRoleKw "editor" (Some "edits").

(** A user object that was never saved. *)
Definition mbob_unsaved : NUser :=
  mkUser None (Some "new@x.com") None None true [].

End Sample.

(** * Properties *)

(** ** List primitives *)

Lemma py_in_In (n : string) (l : list string) :
  py_in (String.eqb n) l = true <-> In n l.
Proof.
  unfold py_in. rewrite existsb_exists. split.
  - intros [x [Hx Hq]]. apply String.eqb_eq in Hq. now subst.
  - intros H. exists n. split; [assumption | apply String.eqb_refl].
Qed.

Lemma py_in_not_In (n : string) (l : list string) :
  py_in (String.eqb n) l = false <-> ~ In n l.
Proof.
  rewrite <- py_in_In. destruct (py_in (String.eqb n) l); split; congruence.
Qed.

Lemma occurrences_app {A : Type} (p : A -> bool) (l1 l2 : list A) :
  occurrences p (l1 ++ l2) = (occurrences p l1 + occurrences p l2)%nat.
Proof.
  unfold occurrences. rewrite filter_app. apply length_app.
Qed.

Lemma occurrences_absent {A : Type} (p : A -> bool) (l : list A) :
  py_in p l = false -> occurrences p l = 0%nat.
Proof.
  unfold py_in, occurrences. induction l as [|x l IH]; simpl; [reflexivity|].
  intros H. apply orb_false_iff in H as [Hx Hl]. rewrite Hx. auto.
Qed.

Lemma occurrences_present {A : Type} (p : A -> bool) (l : list A) :
  py_in p l = true -> (1 <= occurrences p l)%nat.
Proof.
  unfold py_in, occurrences. induction l as [|x l IH]; simpl; [discriminate|].
  destruct (p x); simpl; intros H; [lia | auto].
Qed.

(** [l.remove(x)] succeeds on a list that holds [x], takes one occurrence of
    [x] away and adds no occurrence of anything. *)
Lemma py_remove_present {A : Type} (p : A -> bool) (l : list A) :
  py_in p l = true ->
  exists r, py_remove p l = Some r /\
            S (occurrences p r) = occurrences p l /\
            forall q : A -> bool, (occurrences q r <= occurrences q l)%nat.
Proof.
  unfold py_in, occurrences. induction l as [|x l IH]; simpl; [discriminate|].
  destruct (p x) eqn:Hx; simpl.
  - intros _. exists l. split; [reflexivity|]. split; [reflexivity|].
    intros q. destruct (q x); simpl; lia.
  - intros H. destruct (IH H) as [r [Hr [Hc Hq]]]. rewrite Hr.
    exists (x :: r). simpl. rewrite Hx. split; [reflexivity|]. split; [assumption|].
    intros q. specialize (Hq q). destruct (q x); simpl; lia.
Qed.

Lemma py_remove_absent {A : Type} (p : A -> bool) (l : list A) :
  py_in p l = false -> py_remove p l = None.
Proof.
  unfold py_in. induction l as [|x l IH]; simpl; [reflexivity|].
  intros H. apply orb_false_iff in H as [Hx Hl]. rewrite Hx, (IH Hl). reflexivity.
Qed.

Lemma names_at_most_once_NoDup (l : list string) :
  names_at_most_once l <-> NoDup l.
Proof.
  unfold names_at_most_once, occurrences. induction l as [|x l IH]; simpl.
  - split; [constructor | intros; lia].
  - split.
    + intros H. constructor.
      * intros Hin. specialize (H x). rewrite String.eqb_refl in H. simpl in H.
        apply py_in_In in Hin. apply occurrences_present in Hin.
        unfold occurrences in Hin. lia.
      * apply IH. intros n. specialize (H n). destruct (String.eqb n x); simpl in H; lia.
    + intros H n. inversion H as [|? ? Hnin Hnd]; subst.
      destruct (String.eqb n x) eqn:E; simpl.
      * apply String.eqb_eq in E. subst. apply py_in_not_In in Hnin.
        apply occurrences_absent in Hnin. unfold occurrences in Hnin. lia.
      * apply IH. assumption.
Qed.

(** ** Queries of the NDB backend *)

Section NDBQueries.
Import NDBUserDatastore.

Lemma prop_eqb_eq (p : option string) (v : string) :
  prop_eqb p v = true <-> p = Some v.
Proof.
  destruct p as [s|]; simpl.
  - rewrite String.eqb_eq. split; congruence.
  - split; discriminate.
Qed.

Lemma key_id_eqb_eq (a b : key_id) : key_id_eqb a b = true <-> a = b.
Proof.
  destruct a, b; simpl; try (split; discriminate).
  - rewrite Z.eqb_eq. split; congruence.
  - rewrite String.eqb_eq. split; congruence.
Qed.

Lemma get_by_id_hit (i : Z) (st : Store) (u : NUser) :
  get_by_id i st = Some u -> In u (users st) /\ key u = Some (IntId i).
Proof.
  unfold get_by_id. intros H. apply find_some in H as [Hin Hk]. split; [assumption|].
  destruct (key u) as [k|]; simpl in Hk; [|discriminate].
  apply key_id_eqb_eq in Hk. now subst.
Qed.

Lemma get_by_id_miss (i : Z) (st : Store) :
  get_by_id i st = None -> forall u, In u (users st) -> key u <> Some (IntId i).
Proof.
  unfold get_by_id. intros H u Hin Hk. apply (find_none _ _ H) in Hin.
  rewrite Hk in Hin. simpl in Hin. rewrite Z.eqb_refl in Hin. discriminate.
Qed.

Lemma query_email_hit (e : string) (st : Store) (u : NUser) :
  query_email e st = Some u -> In u (users st) /\ email u = Some e.
Proof.
  unfold query_email. intros H. apply find_some in H as [Hin Hk].
  split; [assumption | now apply prop_eqb_eq].
Qed.

Lemma query_email_miss (e : string) (st : Store) :
  query_email e st = None -> forall u, In u (users st) -> email u <> Some e.
Proof.
  unfold query_email. intros H u Hin Hk. apply (find_none _ _ H) in Hin.
  apply prop_eqb_eq in Hk. congruence.
Qed.

Lemma query_username_hit (n : string) (st : Store) (u : NUser) :
  query_username n st = Some u -> In u (users st) /\ username u = Some n.
Proof.
  unfold query_username. intros H. apply find_some in H as [Hin Hk].
  split; [assumption | now apply prop_eqb_eq].
Qed.

Lemma query_username_miss (n : string) (st : Store) :
  query_username n st = None -> forall u, In u (users st) -> username u <> Some n.
Proof.
  unfold query_username. intros H u Hin Hk. apply (find_none _ _ H) in Hin.
  apply prop_eqb_eq in Hk. congruence.
Qed.

Lemma query_role_name_hit (n : string) (st : Store) (r : Role) :
  query_role_name n st = Some r -> In r (roles st) /\ name r = n.
Proof.
  unfold query_role_name. intros H. apply find_some in H as [Hin Hk].
  split; [assumption | now apply String.eqb_eq].
Qed.

End NDBQueries.

(** ** Lookup: [get_user] and [find_user] of the NDB backend *)

Lemma ndb_get_user_str (st : NDBUserDatastore.Store) (s : string) :
  NDBUserDatastore.get_user (PyStr s) st
  = (Ok (match NDBUserDatastore.query_email (lower s) st with
         | Some u => Some u
         | None => NDBUserDatastore.query_username (lower s) st
         end), NDBUserDatastore.bind_long st).
Proof.
  unfold NDBUserDatastore.get_user, bind, gets, ret.
  change (NDBUserDatastore.query_email (lower s) (NDBUserDatastore.bind_long st))
    with (NDBUserDatastore.query_email (lower s) st).
  destruct (NDBUserDatastore.query_email (lower s) st); [reflexivity|].
  change (NDBUserDatastore.query_username (lower s) (NDBUserDatastore.bind_long st))
    with (NDBUserDatastore.query_username (lower s) st).
  destruct (NDBUserDatastore.query_username (lower s) st); reflexivity.
Qed.

Lemma bind_long_bound (st : NDBUserDatastore.Store) :
  NDBUserDatastore.long_bound st = true -> NDBUserDatastore.bind_long st = st.
Proof. destruct st as [us rs n l b]. simpl. intros ->. reflexivity. Qed.

(** [find_user] with a truthy id, by the state of the name [long]. *)
Lemma ndb_find_user_by_id_eq (st : NDBUserDatastore.Store) (e : option string) (i : Z) :
  i <> 0%Z ->
  NDBUserDatastore.find_user e (Some i) st
  = if NDBUserDatastore.long_bound st
    then (Ok (NDBUserDatastore.get_by_id i st), st)
    else (Raise NameError, st).
Proof.
  intros Hi. unfold NDBUserDatastore.find_user. simpl.
  apply Z.eqb_neq in Hi. rewrite Hi. simpl. unfold bind, gets.
  destruct (NDBUserDatastore.long_bound st); reflexivity.
Qed.

(** C1.  [NDBUserDatastore.get_user] resolves its argument in three tiers
    tried in order.  An integer is fetched by primary key and nothing else is
    tried.  A string is lowercased; the first stored user whose email equals
    the lowercased string is returned, else the first stored user whose
    username equals it, else none.  Any other value yields none.  The
    stored entities are never changed; the call only leaves the module-level
    name [long] bound.  On a store holding the user with id 7, email
    "a@x.com" and username "bob", the lookups by 7, "A@X.COM" and "bob"
    return that user and the lookup by "nope" returns none. *)
Theorem ndb_get_user_three_tier :
  (forall st i,
     NDBUserDatastore.get_user (PyLong i) st
     = (Ok (NDBUserDatastore.get_by_id i st), NDBUserDatastore.bind_long st)) /\
  (forall st s,
     NDBUserDatastore.get_user (PyStr s) st
     = (Ok (match NDBUserDatastore.query_email (lower s) st with
            | Some u => Some u
            | None => NDBUserDatastore.query_username (lower s) st
            end), NDBUserDatastore.bind_long st)) /\
  (forall st,
     NDBUserDatastore.get_user PyNone st = (Ok None, NDBUserDatastore.bind_long st)) /\
  (forall st,
     NDBUserDatastore.users (NDBUserDatastore.bind_long st) = NDBUserDatastore.users st /\
     NDBUserDatastore.roles (NDBUserDatastore.bind_long st) = NDBUserDatastore.roles st /\
     NDBUserDatastore.next_id (NDBUserDatastore.bind_long st)
     = NDBUserDatastore.next_id st /\
     NDBUserDatastore.log (NDBUserDatastore.bind_long st) = NDBUserDatastore.log st) /\
  (forall st s u,
     NDBUserDatastore.query_email (lower s) st = Some u ->
     In u (NDBUserDatastore.users st) /\ email u = Some (lower s)) /\
  (forall st s,
     NDBUserDatastore.query_email (lower s) st = None ->
     forall u, In u (NDBUserDatastore.users st) -> email u <> Some (lower s)) /\
  (forall st s u,
     NDBUserDatastore.query_username (lower s) st = Some u ->
     In u (NDBUserDatastore.users st) /\ username u = Some (lower s)) /\
  (forall st s,
     NDBUserDatastore.query_username (lower s) st = None ->
     forall u, In u (NDBUserDatastore.users st) -> username u <> Some (lower s)) /\
  NDBUserDatastore.get_user (PyLong 7) Sample.store
  = (Ok (Some Sample.bob), NDBUserDatastore.bind_long Sample.store) /\
  NDBUserDatastore.get_user (PyStr "A@X.COM") Sample.store
  = (Ok (Some Sample.bob), NDBUserDatastore.bind_long Sample.store) /\
  NDBUserDatastore.get_user (PyStr "bob") Sample.store
  = (Ok (Some Sample.bob), NDBUserDatastore.bind_long Sample.store) /\
  NDBUserDatastore.get_user (PyStr "nope") Sample.store
  = (Ok None, NDBUserDatastore.bind_long Sample.store).
Proof.
  repeat match goal with |- _ /\ _ => split end; try reflexivity.
  - intros st s. apply ndb_get_user_str.
  - intros st. repeat split.
  - intros st s u. apply query_email_hit.
  - intros st s. apply query_email_miss.
  - intros st s u. apply query_username_hit.
  - intros st s. apply query_username_miss.
Qed.

Lemma ndb_get_user_three_tier_witness :
  NDBUserDatastore.query_username (lower "bob") Sample.store = Some Sample.bob /\
  In Sample.bob (NDBUserDatastore.users Sample.store) /\
  username Sample.bob = Some (lower "bob").
Proof.
  split; [reflexivity|].
  destruct ndb_get_user_three_tier as (_ & _ & _ & _ & _ & _ & H & _).
  apply (H Sample.store "bob" Sample.bob). reflexivity.
Defined.

(** C5, as stated, fails on the empty email string: [find_user] tests
    [if email:] before it queries, so a user stored with the email "" is not
    returned although the stored email equals the lowercased argument.  It
    also fails for an id while the name [long] is not bound: the fetch is
    not reached, [long(id)] raises [NameError]. *)
Lemma ndb_find_user_empty_email_counterexample :
  NDBUserDatastore.query_email (lower "") Sample.store_blank = Some Sample.blank /\
  NDBUserDatastore.find_user (Some "") None Sample.store_blank
  = (Ok None, Sample.store_blank) /\
  ~ (forall st e,
       NDBUserDatastore.find_user (Some e) None st
       = (Ok (NDBUserDatastore.query_email (lower e) st), st)) /\
  NDBUserDatastore.get_by_id 7 Sample.store = Some Sample.bob /\
  NDBUserDatastore.find_user None (Some 7%Z) Sample.store
  = (Raise NameError, Sample.store).
Proof.
  split; [reflexivity|]. split; [reflexivity|]. split; [|split; reflexivity].
  intros H. specialize (H Sample.store_blank ""). discriminate H.
Qed.

(** C5, amended.  [NDBUserDatastore.find_user] looks a user up by id or by
    email and never by username.  A truthy (non-zero) id is fetched by
    primary key, whatever the email argument, provided the module-level name
    [long] is bound when the call is made; it is bound in every state a
    [get_user] call leaves behind.  Otherwise a truthy (non-empty) email is
    lowercased and the first stored user whose email equals it is returned,
    or none.  With neither, the result is none.  A string that matches no
    stored email yields none even when it is a stored username, which
    [get_user] would have found. *)
Theorem ndb_find_user_email_or_id (st : NDBUserDatastore.Store) :
  (forall i e, i <> 0%Z ->
     NDBUserDatastore.long_bound st = true ->
     NDBUserDatastore.find_user e (Some i) st
     = (Ok (NDBUserDatastore.get_by_id i st), st)) /\
  (forall i e x, i <> 0%Z ->
     NDBUserDatastore.find_user e (Some i) (snd (NDBUserDatastore.get_user x st))
     = (Ok (NDBUserDatastore.get_by_id i st), snd (NDBUserDatastore.get_user x st))) /\
  (forall e id, e <> "" -> id = None \/ id = Some 0%Z ->
     NDBUserDatastore.find_user (Some e) id st
     = (Ok (NDBUserDatastore.query_email (lower e) st), st)) /\
  (forall e id, e = None \/ e = Some "" -> id = None \/ id = Some 0%Z ->
     NDBUserDatastore.find_user e id st = (Ok None, st)) /\
  (forall n, NDBUserDatastore.query_email (lower n) st = None ->
     NDBUserDatastore.find_user (Some n) None st = (Ok None, st) /\
     NDBUserDatastore.get_user (PyStr n) st
     = (Ok (NDBUserDatastore.query_username (lower n) st),
        NDBUserDatastore.bind_long st)).
Proof.
  repeat match goal with |- _ /\ _ => split end.
  - intros i e Hi Hb. rewrite (ndb_find_user_by_id_eq st e i Hi), Hb. reflexivity.
  - intros i e x Hi.
    assert (snd (NDBUserDatastore.get_user x st) = NDBUserDatastore.bind_long st) as ->.
    { destruct x; [reflexivity | rewrite ndb_get_user_str; reflexivity | reflexivity]. }
    rewrite (ndb_find_user_by_id_eq _ e i Hi). reflexivity.
  - intros e id He Hid. unfold NDBUserDatastore.find_user.
    assert (truthy_int id = false) as -> by (destruct Hid; subst; reflexivity).
    simpl. apply String.eqb_neq in He. rewrite He. reflexivity.
  - intros e id He Hid. unfold NDBUserDatastore.find_user.
    assert (truthy_int id = false) as -> by (destruct Hid; subst; reflexivity).
    assert (truthy_str e = false) as -> by (destruct He; subst; reflexivity).
    reflexivity.
  - intros n Hn. split.
    + unfold NDBUserDatastore.find_user. simpl.
      destruct (String.eqb n "") eqn:E; simpl; [reflexivity|].
      unfold gets. rewrite Hn. reflexivity.
    + rewrite ndb_get_user_str, Hn. reflexivity.
Qed.

Lemma ndb_find_user_email_or_id_witness :
  NDBUserDatastore.find_user None (Some 7%Z) (NDBUserDatastore.bind_long Sample.store)
  = (Ok (Some Sample.bob), NDBUserDatastore.bind_long Sample.store) /\
  NDBUserDatastore.find_user (Some "A@X.COM") None Sample.store
  = (Ok (Some Sample.bob), Sample.store) /\
  NDBUserDatastore.find_user (Some "bob") None Sample.store = (Ok None, Sample.store).
Proof.
  split; [|split].
  - destruct (ndb_find_user_email_or_id (NDBUserDatastore.bind_long Sample.store))
      as (Hid & _).
    rewrite (Hid 7%Z None); [reflexivity | discriminate | reflexivity].
  - destruct (ndb_find_user_email_or_id Sample.store) as (_ & _ & He & _).
    rewrite (He "A@X.COM" None); [reflexivity | discriminate | left; reflexivity].
  - destruct (ndb_find_user_email_or_id Sample.store) as (_ & _ & _ & _ & Hn).
    apply (Hn "bob"). reflexivity.
Defined.

(** ** The role operations of the NDB backend, as equations *)

Ltac st_run :=
  repeat (cbv beta iota zeta delta
            [bind ret raise gets getattr list_remove returning id fst snd];
          cbn [membership key email username password active]).

Lemma ndb_prepare_role_modify_args_eq
  (user : str_or NDBUserDatastore.NUser) (role : str_or NDBUserDatastore.Role)
  (st : NDBUserDatastore.Store) :
  UserDatastore._prepare_role_modify_args user role st
  = (Ok (resolved_user user st, resolved_role role st), st).
Proof.
  unfold UserDatastore._prepare_role_modify_args.
  destruct user as [u|e], role as [r|n]; simpl;
    unfold NDBUserDatastore.find_user, NDBUserDatastore.find_role; simpl;
    try destruct (String.eqb e ""); reflexivity.
Qed.

Lemma ndb_add_role_to_user_eq
  (user : str_or NDBUserDatastore.NUser) (role : str_or NDBUserDatastore.Role)
  (st : NDBUserDatastore.Store) :
  NDBUserDatastore.add_role_to_user user role st
  = match resolved_role role st, resolved_user user st with
    | Some r, Some u =>
        if py_in (String.eqb (NDBUserDatastore.name r)) (NDBUserDatastore.role_names u)
        then (Ok (false, u), st)
        else returning true
               (NDBUserDatastore.user_put
                  (set_membership
                     (NDBUserDatastore.role_names u ++ [NDBUserDatastore.name r]) u) st)
    | _, _ => (Raise AttributeError, st)
    end.
Proof.
  unfold NDBUserDatastore.add_role_to_user.
  unfold bind at 1. rewrite ndb_prepare_role_modify_args_eq.
  destruct (resolved_role role st) as [r|], (resolved_user user st) as [u|];
    try reflexivity.
  st_run.
  destruct (py_in (String.eqb (NDBUserDatastore.name r)) (NDBUserDatastore.role_names u));
    [reflexivity|].
  destruct (NDBUserDatastore.user_put _ st) as [[u'|e] st']; reflexivity.
Qed.

Lemma ndb_remove_role_from_user_eq
  (user : str_or NDBUserDatastore.NUser) (role : str_or NDBUserDatastore.Role)
  (st : NDBUserDatastore.Store) :
  NDBUserDatastore.remove_role_from_user user role st
  = match resolved_role role st, resolved_user user st with
    | Some r, Some u =>
        match py_remove (String.eqb (NDBUserDatastore.name r))
                        (NDBUserDatastore.role_names u) with
        | Some names =>
            returning true (NDBUserDatastore.user_put (set_membership names u) st)
        | None => (Ok (false, u), st)
        end
    | _, _ => (Raise AttributeError, st)
    end.
Proof.
  unfold NDBUserDatastore.remove_role_from_user.
  unfold bind at 1. rewrite ndb_prepare_role_modify_args_eq.
  destruct (resolved_role role st) as [r|], (resolved_user user st) as [u|];
    try reflexivity.
  st_run.
  destruct (py_in (String.eqb (NDBUserDatastore.name r)) (NDBUserDatastore.role_names u))
    eqn:Hin.
  - destruct (py_remove_present _ _ Hin) as [names [Hrm _]]. rewrite Hrm.
    destruct (NDBUserDatastore.user_put _ st) as [[u'|e] st']; reflexivity.
  - rewrite (py_remove_absent _ _ Hin). reflexivity.
Qed.

(** ** The active flag *)

Lemma set_active_same {C : Type} (u : User C) : set_active (active u) u = u.
Proof. destruct u; reflexivity. Qed.

Lemma set_active_twice {C : Type} (a b : bool) (u : User C) :
  set_active b (set_active a u) = set_active b u.
Proof. destruct u; reflexivity. Qed.

(** C8.  [activate_user] returns true and sets the flag exactly when the
    user was inactive; on an active user it returns false and hands the user
    back as it was.  [deactivate_user] is the mirror image.  [toggle_active]
    always returns true and negates the flag, and two toggles in a row give
    the user back with its original flag (indeed the original user). *)
Theorem activation_round_trip {W C : Type} (user : User C) (w : W) :
  UserDatastore.activate_user user w
  = (if active user then (Ok (false, user), w)
     else (Ok (true, set_active true user), w)) /\
  UserDatastore.deactivate_user user w
  = (if active user then (Ok (true, set_active false user), w)
     else (Ok (false, user), w)) /\
  active (set_active true user) = true /\
  active (set_active false user) = false /\
  UserDatastore.toggle_active user w
  = (Ok (true, set_active (negb (active user)) user), w) /\
  active (set_active (negb (active user)) user) = negb (active user) /\
  ('(_, once) <- UserDatastore.toggle_active user ;;
   UserDatastore.toggle_active once) w
  = (Ok (true, user), w).
Proof.
  repeat match goal with |- _ /\ _ => split end; try reflexivity.
  - unfold UserDatastore.activate_user. destruct (active user); reflexivity.
  - unfold UserDatastore.deactivate_user. destruct (active user); reflexivity.
  - unfold UserDatastore.toggle_active, bind, ret. simpl.
    rewrite set_active_twice, negb_involutive, set_active_same. reflexivity.
Qed.

(** C10.  [toggle_active], [activate_user] and [deactivate_user] change
    nothing but the active flag of the user value they are given, and leave
    the backend state as it was, for every backend: no [put], [delete] or
    other backend method runs.  In the NDB backend the stored entities and
    the trace of persistence calls are unchanged, so a stored user still
    reads back with its old flag, whereas [add_role_to_user], when it adds,
    records a [put] of the user. *)
Theorem activation_does_not_persist {W C : Type} (user : User C) (w : W) :
  (exists b a, UserDatastore.toggle_active user w = (Ok (b, set_active a user), w)) /\
  (exists b a, UserDatastore.activate_user user w = (Ok (b, set_active a user), w)) /\
  (exists b a, UserDatastore.deactivate_user user w = (Ok (b, set_active a user), w)) /\
  (forall (u : NDBUserDatastore.NUser) (st : NDBUserDatastore.Store),
     snd (NDBUserDatastore.toggle_active u st) = st /\
     snd (NDBUserDatastore.activate_user u st) = st /\
     snd (NDBUserDatastore.deactivate_user u st) = st) /\
  (forall (u : NDBUserDatastore.NUser) (r : NDBUserDatastore.Role)
          (st : NDBUserDatastore.Store),
     exists res st',
       NDBUserDatastore.add_role_to_user (Inst u) (Inst r) st = (res, st') /\
       NDBUserDatastore.log st'
       = if py_in (String.eqb (NDBUserDatastore.name r)) (NDBUserDatastore.role_names u)
         then NDBUserDatastore.log st
         else NDBUserDatastore.log st
              ++ [NDBUserDatastore.EvPutUser
                    (match key u with
                     | Some k => k
                     | None => IntId (NDBUserDatastore.next_id st)
                     end)]).
Proof.
  repeat match goal with |- _ /\ _ => split end.
  - exists true, (negb (active user)). reflexivity.
  - unfold UserDatastore.activate_user. destruct (active user) eqn:E; simpl.
    + exists false, (active user). rewrite set_active_same. reflexivity.
    + exists true, true. reflexivity.
  - unfold UserDatastore.deactivate_user. destruct (active user) eqn:E; simpl.
    + exists true, false. reflexivity.
    + exists false, (active user). rewrite set_active_same. reflexivity.
  - intros u st. unfold NDBUserDatastore.toggle_active, NDBUserDatastore.activate_user,
      NDBUserDatastore.deactivate_user, UserDatastore.toggle_active,
      UserDatastore.activate_user, UserDatastore.deactivate_user.
    destruct (active u); simpl; auto.
  - intros u r st. rewrite ndb_add_role_to_user_eq. simpl.
    destruct (py_in (String.eqb (NDBUserDatastore.name r)) (NDBUserDatastore.role_names u)).
    + eexists _, _. split; reflexivity.
    + unfold NDBUserDatastore.user_put. simpl.
      destruct (key u); simpl; eexists _, _; split; reflexivity.
Qed.

(** ** Persistence in the NDB backend *)

Lemma upsert_In {E : Type} (key_of : E -> option key_id) (e : E) (l : list E) :
  In e (NDBUserDatastore.upsert key_of e l).
Proof.
  induction l as [|x l IH]; simpl; [now left|].
  destruct (key_eqb (key_of x) (key_of e)); simpl; auto.
Qed.

(** [user.put()] always succeeds; it hands the user back with its key
    completed and everything else as given, stores it, touches no role and
    records one [put]. *)
Lemma user_put_spec (u : NDBUserDatastore.NUser) (st : NDBUserDatastore.Store) :
  exists k st',
    NDBUserDatastore.user_put u st = (Ok (set_key (Some k) u), st') /\
    k = match key u with Some k => k | None => IntId (NDBUserDatastore.next_id st) end /\
    In (set_key (Some k) u) (NDBUserDatastore.users st') /\
    NDBUserDatastore.roles st' = NDBUserDatastore.roles st /\
    NDBUserDatastore.log st' = NDBUserDatastore.log st ++ [NDBUserDatastore.EvPutUser k].
Proof.
  unfold NDBUserDatastore.user_put. destruct u as [k e n p a m]. simpl.
  destruct k as [k|]; eexists _, _; (split; [reflexivity|]); simpl;
    (split; [reflexivity|]); (split; [apply upsert_In|]); split; reflexivity.
Qed.

Lemma resolved_role_roles (role : str_or NDBUserDatastore.Role)
  (st st' : NDBUserDatastore.Store) :
  NDBUserDatastore.roles st' = NDBUserDatastore.roles st ->
  resolved_role role st' = resolved_role role st.
Proof.
  intros H. destruct role as [r|n]; simpl; [reflexivity|].
  unfold NDBUserDatastore.query_role_name. now rewrite H.
Qed.

(** ** The role operations of [UserDatastore], as equations *)

Section GenericRoleOps.
Context {W R : Type} {RM : RoleModel R} {RE : RoleEq R}
        {B : Backend W (list (option R)) R}.

Lemma add_role_to_user_eq (user : str_or (User (list (option R)))) (role : str_or R)
  (w w' : W) (u : option (User (list (option R)))) (r : option R) :
  UserDatastore._prepare_role_modify_args user role w = (Ok (u, r), w') ->
  UserDatastore.add_role_to_user user role w
  = match u with
    | Some u =>
        if py_in (UserDatastore.ref_eqb r) (UserDatastore.roles u)
        then (Ok (false, u), w')
        else returning true
               (put_user (set_membership (UserDatastore.roles u ++ [r]) u) w')
    | None => (Raise AttributeError, w')
    end.
Proof.
  intros H. unfold UserDatastore.add_role_to_user. unfold bind at 1. rewrite H.
  destruct u as [u|]; [|reflexivity]. st_run.
  destruct (py_in (UserDatastore.ref_eqb r) (UserDatastore.roles u)); [reflexivity|].
  simpl. destruct (put_user _ w') as [[u'|e] w'']; reflexivity.
Qed.

Lemma remove_role_from_user_eq (user : str_or (User (list (option R)))) (role : str_or R)
  (w w' : W) (u : option (User (list (option R)))) (r : option R) :
  UserDatastore._prepare_role_modify_args user role w = (Ok (u, r), w') ->
  UserDatastore.remove_role_from_user user role w
  = match u with
    | Some u =>
        match py_remove (UserDatastore.ref_eqb r) (UserDatastore.roles u) with
        | Some l => returning true (put_user (set_membership l u) w')
        | None => (Ok (false, u), w')
        end
    | None => (Raise AttributeError, w')
    end.
Proof.
  intros H. unfold UserDatastore.remove_role_from_user. unfold bind at 1. rewrite H.
  destruct u as [u|]; [|reflexivity]. st_run.
  destruct (py_in (UserDatastore.ref_eqb r) (UserDatastore.roles u)) eqn:Hin.
  - destruct (py_remove_present _ _ Hin) as [l [Hrm _]]. rewrite Hrm.
    destruct (put_user _ w') as [[u'|e] w'']; reflexivity.
  - rewrite (py_remove_absent _ _ Hin). reflexivity.
Qed.

Lemma prepare_instances (u : User (list (option R))) (r : R) (w : W) :
  UserDatastore._prepare_role_modify_args (Inst u) (Inst r) w = (Ok (Some u, Some r), w).
Proof. reflexivity. Qed.

(** Appending a role that is not in the collection keeps every role at most
    once, when [==] is an equivalence. *)
Lemma refs_at_most_once_add (l : list (option R)) (r : option R) :
  role_eq_equiv R ->
  refs_at_most_once l ->
  py_in (UserDatastore.ref_eqb r) l = false ->
  refs_at_most_once (l ++ [r]).
Proof.
  intros (Hrefl & Hsym & Htrans) Hl Hnin x. rewrite occurrences_app.
  unfold occurrences at 2. simpl.
  destruct (UserDatastore.ref_eqb x r) eqn:Hxr; simpl; [|specialize (Hl x); lia].
  assert (py_in (UserDatastore.ref_eqb x) l = false) as Hx.
  { unfold py_in in *. apply not_true_is_false. intros Hex.
    apply existsb_exists in Hex as [el [Hel Heq]].
    assert (existsb (UserDatastore.ref_eqb r) l = true) as Hc; [|congruence].
    apply existsb_exists. exists el. split; [assumption|].
    destruct el as [a|], x as [b|], r as [c|]; simpl in *; try congruence.
    apply (Htrans a b c); [assumption|]. apply Hsym. assumption. }
  rewrite (occurrences_absent _ _ Hx). lia.
Qed.

Lemma refs_at_most_once_remove (l l' : list (option R)) (r : option R) :
  refs_at_most_once l ->
  py_remove (UserDatastore.ref_eqb r) l = Some l' ->
  refs_at_most_once l'.
Proof.
  intros Hl Hrm x.
  destruct (py_in (UserDatastore.ref_eqb r) l) eqn:Hin.
  - destruct (py_remove_present _ _ Hin) as [l0 [Hrm0 [_ Hq]]].
    rewrite Hrm in Hrm0. injection Hrm0 as ->.
    specialize (Hq (UserDatastore.ref_eqb x)). specialize (Hl x). lia.
  - rewrite (py_remove_absent _ _ Hin) in Hrm. discriminate.
Qed.

End GenericRoleOps.

(** ** Adding and removing roles *)

(** C4.  [add_role_to_user] is idempotent.  NDB backend (membership by role
    name), for every user and role the arguments resolve to: when the role's
    name is in the user's [role_names] nothing changes and false is
    returned; otherwise the name is appended, the user is persisted with
    [user.put()] and true is returned, a second call on the same user and
    role returns false and changes nothing, and the name then occurs exactly
    once.  Generic datastore (membership by [role in user.roles]): the same,
    with the user persisted through the backend's [put]. *)
Theorem add_role_to_user_idempotent :
  (forall (st : NDBUserDatastore.Store) user role u r,
     resolved_user user st = Some u ->
     resolved_role role st = Some r ->
     (In (NDBUserDatastore.name r) (NDBUserDatastore.role_names u) ->
      NDBUserDatastore.add_role_to_user user role st = (Ok (false, u), st)) /\
     (~ In (NDBUserDatastore.name r) (NDBUserDatastore.role_names u) ->
      exists u1 st1,
        NDBUserDatastore.user_put
          (set_membership
             (NDBUserDatastore.role_names u ++ [NDBUserDatastore.name r]) u) st
        = (Ok u1, st1) /\
        NDBUserDatastore.add_role_to_user user role st = (Ok (true, u1), st1) /\
        NDBUserDatastore.role_names u1
        = NDBUserDatastore.role_names u ++ [NDBUserDatastore.name r] /\
        In u1 (NDBUserDatastore.users st1) /\
        NDBUserDatastore.add_role_to_user (Inst u1) role st1 = (Ok (false, u1), st1) /\
        occurrences (String.eqb (NDBUserDatastore.name r))
                    (NDBUserDatastore.role_names u1) = 1%nat)) /\
  (forall (W R : Type) (RM : RoleModel R) (RE : RoleEq R)
          (B : Backend W (list (option R)) R)
          (u : User (list (option R))) (r : R) (w : W),
     (py_in (UserDatastore.ref_eqb (Some r)) (UserDatastore.roles u) = true ->
      UserDatastore.add_role_to_user (Inst u) (Inst r) w = (Ok (false, u), w)) /\
     (py_in (UserDatastore.ref_eqb (Some r)) (UserDatastore.roles u) = false ->
      UserDatastore.add_role_to_user (Inst u) (Inst r) w
      = returning true
          (put_user (set_membership (UserDatastore.roles u ++ [Some r]) u) w) /\
      forall u1 w1,
        role_eq r r = true ->
        put_user (set_membership (UserDatastore.roles u ++ [Some r]) u) w = (Ok u1, w1) ->
        UserDatastore.roles u1 = UserDatastore.roles u ++ [Some r] ->
        UserDatastore.add_role_to_user (Inst u) (Inst r) w = (Ok (true, u1), w1) /\
        UserDatastore.add_role_to_user (Inst u1) (Inst r) w1 = (Ok (false, u1), w1) /\
        occurrences (UserDatastore.ref_eqb (Some r)) (UserDatastore.roles u1) = 1%nat)).
Proof.
  split.
  - intros st user role u r Hu Hr. split.
    + intros Hin. rewrite ndb_add_role_to_user_eq, Hu, Hr.
      apply py_in_In in Hin. rewrite Hin. reflexivity.
    + intros Hnin. apply py_in_not_In in Hnin.
      destruct (user_put_spec
                  (set_membership
                     (NDBUserDatastore.role_names u ++ [NDBUserDatastore.name r]) u) st)
        as (k & st1 & Hput & _ & Hstored & Hroles & _).
      eexists _, st1. split; [exact Hput|].
      split; [rewrite ndb_add_role_to_user_eq, Hu, Hr, Hnin, Hput; reflexivity|].
      split; [reflexivity|]. split; [exact Hstored|].
      assert (occurrences (String.eqb (NDBUserDatastore.name r))
                (NDBUserDatastore.role_names u ++ [NDBUserDatastore.name r]) = 1%nat) as Hocc.
      { rewrite occurrences_app, (occurrences_absent _ _ Hnin).
        unfold occurrences. simpl. rewrite String.eqb_refl. reflexivity. }
      split; [|exact Hocc].
      rewrite ndb_add_role_to_user_eq, (resolved_role_roles _ _ _ Hroles), Hr.
      simpl. unfold NDBUserDatastore.role_names. simpl.
      unfold py_in. rewrite existsb_app. simpl. rewrite String.eqb_refl.
      rewrite orb_true_r. reflexivity.
  - intros W R RM RE B u r w. split.
    + intros Hin. rewrite (add_role_to_user_eq _ _ _ _ _ _ (prepare_instances u r w)).
      rewrite Hin. reflexivity.
    + intros Hnin. rewrite (add_role_to_user_eq _ _ _ _ _ _ (prepare_instances u r w)).
      rewrite Hnin. split; [reflexivity|].
      intros u1 w1 Hrefl Hput Hkeep. rewrite Hput. split; [reflexivity|].
      split.
      * rewrite (add_role_to_user_eq _ _ _ _ _ _ (prepare_instances u1 r w1)).
        rewrite Hkeep. unfold py_in. rewrite existsb_app. simpl. rewrite Hrefl.
        rewrite orb_true_r. reflexivity.
      * rewrite Hkeep, occurrences_app, (occurrences_absent _ _ Hnin).
        unfold occurrences. simpl. rewrite Hrefl. reflexivity.
Qed.

Lemma add_role_to_user_idempotent_witness :
  (exists st1,
     NDBUserDatastore.add_role_to_user (Str "A@x.com") (Str "admin") Sample.store
     = (Ok (true, set_membership ["admin"] Sample.bob), st1) /\
     NDBUserDatastore.add_role_to_user
       (Inst (set_membership ["admin"] Sample.bob)) (Str "admin") st1
     = (Ok (false, set_membership ["admin"] Sample.bob), st1)) /\
  NDBUserDatastore.add_role_to_user (Inst Sample.alice) (Inst Sample.admin) Sample.store
  = (Ok (false, Sample.alice), Sample.store) /\
  (exists w1,
     UserDatastore.add_role_to_user (Inst Sample.mbob) (Inst Sample.admin) Sample.world
     = (Ok (true, set_membership [Some Sample.admin] Sample.mbob), w1) /\
     UserDatastore.add_role_to_user
       (Inst (set_membership [Some Sample.admin] Sample.mbob)) (Inst Sample.admin) w1
     = (Ok (false, set_membership [Some Sample.admin] Sample.mbob), w1)).
Proof.
  destruct add_role_to_user_idempotent as [Hndb Hgen].
  split; [|split].
  - destruct (Hndb Sample.store (Str "A@x.com") (Str "admin") Sample.bob Sample.admin
                eq_refl eq_refl) as [_ Hadd].
    destruct Hadd as (u1 & st1 & Hput & H1 & _ & _ & H2 & _).
    + simpl. intros [].
    + vm_compute in Hput. injection Hput as <- <-.
      eexists. split; [exact H1 | exact H2].
  - destruct (Hndb Sample.store (Inst Sample.alice) (Inst Sample.admin)
                Sample.alice Sample.admin eq_refl eq_refl) as [Hin _].
    apply Hin. simpl. now left.
  - destruct (Hgen _ _ _ _ MemoryDatastore.mem_backend Sample.mbob Sample.admin Sample.world)
      as [_ Hadd].
    destruct (Hadd eq_refl) as [_ Htwice].
    destruct (Htwice _ _ eq_refl eq_refl eq_refl) as (H1 & H2 & _).
    eexists. split; [exact H1 | exact H2].
Defined.

Lemma py_in_occurrences {A : Type} (p : A -> bool) (l : list A) :
  py_in p l = true <-> (1 <= occurrences p l)%nat.
Proof.
  split; [apply occurrences_present|].
  intros H. destruct (py_in p l) eqn:E; [reflexivity|].
  rewrite (occurrences_absent _ _ E) in H. lia.
Qed.

(** C7, as stated, fails when the role occurs more than once in the
    collection: [list.remove] takes one occurrence away.  A user created
    with [roles=["admin", "admin"]] has the role name twice;
    [remove_role_from_user] then returns true and the user still has the
    role. *)
Lemma ndb_remove_role_repeated_counterexample :
  exists u st1 u1 st2,
    NDBUserDatastore.create_user
      (mkUserKw (Some "c@x.com") None None None (Some [Str "admin"; Str "admin"]))
      Sample.store
    = (Ok u, st1) /\
    NDBUserDatastore.role_names u = ["admin"; "admin"] /\
    NDBUserDatastore.remove_role_from_user (Inst u) (Str "admin") st1
    = (Ok (true, u1), st2) /\
    NDBUserDatastore.role_names u1 = ["admin"] /\
    NDBUserDatastore.has_role u1 "admin" = true /\
    In "admin" (NDBUserDatastore.role_names u1).
Proof.
  eexists _, _, _, _. split; [cbv; reflexivity|]. split; [reflexivity|].
  split; [cbv; reflexivity|]. split; [reflexivity|]. split; [reflexivity|].
  simpl. left. reflexivity.
Qed.

(** C7, amended.  [remove_role_from_user] returns true exactly when the role
    is a member.  It then takes one occurrence of the role out of the
    collection ([list.remove] drops the first) and persists the user; the
    role is still a member afterwards exactly when it occurred at least
    twice, so it is gone whenever it occurred once, in particular when the
    collection held no repetition.  On a non-member it returns false and
    hands back the user and the backend state as they were, so nothing is
    persisted.  NDB backend: membership is by role name and the user is
    saved with [user.put()], which records one [put].  Generic datastore:
    membership is [role in user.roles] and the user goes through the
    backend's [put]; the arguments may be instances or strings. *)
Theorem remove_role_from_user_member_only :
  (forall (st : NDBUserDatastore.Store) user role u r,
     resolved_user user st = Some u ->
     resolved_role role st = Some r ->
     (In (NDBUserDatastore.name r) (NDBUserDatastore.role_names u) ->
      exists names u1 st1,
        py_remove (String.eqb (NDBUserDatastore.name r)) (NDBUserDatastore.role_names u)
        = Some names /\
        NDBUserDatastore.user_put (set_membership names u) st = (Ok u1, st1) /\
        NDBUserDatastore.remove_role_from_user user role st = (Ok (true, u1), st1) /\
        NDBUserDatastore.role_names u1 = names /\
        S (occurrences (String.eqb (NDBUserDatastore.name r)) names)
        = occurrences (String.eqb (NDBUserDatastore.name r))
                      (NDBUserDatastore.role_names u) /\
        (In (NDBUserDatastore.name r) names <->
         (2 <= occurrences (String.eqb (NDBUserDatastore.name r))
                           (NDBUserDatastore.role_names u))%nat) /\
        (NoDup (NDBUserDatastore.role_names u) -> ~ In (NDBUserDatastore.name r) names) /\
        In u1 (NDBUserDatastore.users st1) /\
        exists k, NDBUserDatastore.log st1
                  = NDBUserDatastore.log st ++ [NDBUserDatastore.EvPutUser k]) /\
     (~ In (NDBUserDatastore.name r) (NDBUserDatastore.role_names u) ->
      NDBUserDatastore.remove_role_from_user user role st = (Ok (false, u), st))) /\
  (forall (W R : Type) (RM : RoleModel R) (RE : RoleEq R)
          (B : Backend W (list (option R)) R)
          user role (u : User (list (option R))) (r : option R) (w w1 : W),
     UserDatastore._prepare_role_modify_args user role w = (Ok (Some u, r), w1) ->
     (py_in (UserDatastore.ref_eqb r) (UserDatastore.roles u) = true ->
      exists l,
        py_remove (UserDatastore.ref_eqb r) (UserDatastore.roles u) = Some l /\
        S (occurrences (UserDatastore.ref_eqb r) l)
        = occurrences (UserDatastore.ref_eqb r) (UserDatastore.roles u) /\
        (py_in (UserDatastore.ref_eqb r) l = true <->
         (2 <= occurrences (UserDatastore.ref_eqb r) (UserDatastore.roles u))%nat) /\
        UserDatastore.remove_role_from_user user role w
        = returning true (put_user (set_membership l u) w1)) /\
     (py_in (UserDatastore.ref_eqb r) (UserDatastore.roles u) = false ->
      UserDatastore.remove_role_from_user user role w = (Ok (false, u), w1))).
Proof.
  split.
  - intros st user role u r Hu Hr. split.
    + intros Hin. apply py_in_In in Hin.
      destruct (py_remove_present _ _ Hin) as (names & Hrm & Hocc & _).
      destruct (user_put_spec (set_membership names u) st)
        as (k & st1 & Hput & _ & Hstored & _ & Hlog).
      exists names. eexists _, st1. split; [exact Hrm|]. split; [exact Hput|].
      split; [rewrite ndb_remove_role_from_user_eq, Hu, Hr, Hrm, Hput; reflexivity|].
      split; [reflexivity|]. split; [exact Hocc|].
      split; [rewrite <- py_in_In, py_in_occurrences; lia|].
      split; [|split; [exact Hstored | exists k; exact Hlog]].
      intros Hnd Hstill. apply names_at_most_once_NoDup in Hnd.
      specialize (Hnd (NDBUserDatastore.name r)).
      apply py_in_In, occurrences_present in Hstill. lia.
    + intros Hnin. apply py_in_not_In in Hnin.
      rewrite ndb_remove_role_from_user_eq, Hu, Hr, (py_remove_absent _ _ Hnin).
      reflexivity.
  - intros W R RM RE B user role u r w w1 Hp. split.
    + intros Hin. destruct (py_remove_present _ _ Hin) as (l & Hrm & Hocc & _).
      exists l. split; [exact Hrm|]. split; [exact Hocc|].
      split; [rewrite py_in_occurrences; lia|].
      rewrite (remove_role_from_user_eq _ _ _ _ _ _ Hp), Hrm. reflexivity.
    + intros Hnin. rewrite (remove_role_from_user_eq _ _ _ _ _ _ Hp).
      rewrite (py_remove_absent _ _ Hnin). reflexivity.
Qed.

Lemma remove_role_from_user_member_only_witness :
  (exists st1,
     NDBUserDatastore.remove_role_from_user
       (Str "alice@x.com") (Str "admin") Sample.store
     = (Ok (true, set_membership [] Sample.alice), st1)) /\
  NDBUserDatastore.remove_role_from_user (Inst Sample.bob) (Inst Sample.admin) Sample.store
  = (Ok (false, Sample.bob), Sample.store) /\
  UserDatastore.remove_role_from_user (Inst Sample.mbob) (Str "admin") Sample.world
  = (Ok (false, Sample.mbob), Sample.world).
Proof.
  destruct remove_role_from_user_member_only as [Hndb Hgen].
  split; [|split].
  - destruct (Hndb Sample.store (Str "alice@x.com") (Str "admin")
                Sample.alice Sample.admin eq_refl eq_refl) as [Hin _].
    destruct Hin as (names & u1 & st1 & Hrm & Hput & H1 & _).
    + simpl. now left.
    + vm_compute in Hrm. injection Hrm as <-.
      vm_compute in Hput. injection Hput as <- <-.
      eexists. exact H1.
  - destruct (Hndb Sample.store (Inst Sample.bob) (Inst Sample.admin)
                Sample.bob Sample.admin eq_refl eq_refl) as [_ Hnin].
    apply Hnin. simpl. intros [].
  - destruct (Hgen _ _ _ _ MemoryDatastore.mem_backend (Inst Sample.mbob) (Str "admin")
                Sample.mbob (Some Sample.admin) Sample.world Sample.world eq_refl)
      as [_ Hnin].
    apply Hnin. reflexivity.
Defined.

(** ** Unresolved arguments *)

(** C2, as stated, fails: a role name that [find_role] does not resolve
    makes both NDB operations raise [AttributeError] (they read [role.name]
    of [None]); so does a user string that [find_user] does not resolve, in
    the NDB backend and in the generic datastore (which reads [user.roles]
    of [None]). *)
Lemma unresolved_argument_raises_counterexample :
  NDBUserDatastore.find_role "ghost" Sample.store = (Ok None, Sample.store) /\
  NDBUserDatastore.add_role_to_user (Inst Sample.bob) (Str "ghost") Sample.store
  = (Raise AttributeError, Sample.store) /\
  NDBUserDatastore.remove_role_from_user (Inst Sample.bob) (Str "ghost") Sample.store
  = (Raise AttributeError, Sample.store) /\
  NDBUserDatastore.find_user (Some "nobody@x.com") None Sample.store
  = (Ok None, Sample.store) /\
  NDBUserDatastore.add_role_to_user (Str "nobody@x.com") (Str "admin") Sample.store
  = (Raise AttributeError, Sample.store) /\
  UserDatastore.add_role_to_user (Str "nobody@x.com") (Inst Sample.admin) Sample.world
  = (Raise AttributeError, Sample.world) /\
  ~ (forall st u n,
       NDBUserDatastore.find_role n st = (Ok None, st) ->
       exists v st', NDBUserDatastore.add_role_to_user (Inst u) (Str n) st = (Ok v, st')).
Proof.
  repeat match goal with |- _ /\ _ => split end; try reflexivity.
  intros H. destruct (H Sample.store Sample.bob "ghost" eq_refl) as (v & st' & Hv).
  discriminate Hv.
Qed.

(** C2, amended.  An unresolved string propagates as [None], unguarded.
    NDB backend: when the user or the role does not resolve, both
    [add_role_to_user] and [remove_role_from_user] raise [AttributeError]
    and leave the store as it was.  Generic datastore: an unresolved user
    raises [AttributeError]; an unresolved role with a user instance does
    not raise, [None] being treated as one more entry of [user.roles]:
    [add_role_to_user] appends [None], persists and returns true unless
    [None] is already an entry, and [remove_role_from_user] returns false
    unless [None] is an entry. *)
Theorem unresolved_arguments_propagate :
  (forall st e, NDBUserDatastore.find_user (Some e) None st
                = (Ok (resolved_user (Str e) st), st)) /\
  (forall st n, NDBUserDatastore.find_role n st = (Ok (resolved_role (Str n) st), st)) /\
  (forall (st : NDBUserDatastore.Store) user role,
     resolved_user user st = None \/ resolved_role role st = None ->
     NDBUserDatastore.add_role_to_user user role st = (Raise AttributeError, st) /\
     NDBUserDatastore.remove_role_from_user user role st = (Raise AttributeError, st)) /\
  (forall (W R : Type) (RM : RoleModel R) (RE : RoleEq R)
          (B : Backend W (list (option R)) R) (e : string) (r : R) (w w' : W),
     find_user (Some e) None w = (Ok None, w') ->
     UserDatastore.add_role_to_user (Str e) (Inst r) w = (Raise AttributeError, w') /\
     UserDatastore.remove_role_from_user (Str e) (Inst r) w = (Raise AttributeError, w')) /\
  (forall (W R : Type) (RM : RoleModel R) (RE : RoleEq R)
          (B : Backend W (list (option R)) R)
          (u : User (list (option R))) (n : string) (w w' : W),
     find_role n w = (Ok None, w') ->
     UserDatastore.add_role_to_user (Inst u) (Str n) w
     = (if py_in (UserDatastore.ref_eqb None) (UserDatastore.roles u)
        then (Ok (false, u), w')
        else returning true
               (put_user (set_membership (UserDatastore.roles u ++ [None]) u) w')) /\
     UserDatastore.remove_role_from_user (Inst u) (Str n) w
     = match py_remove (UserDatastore.ref_eqb None) (UserDatastore.roles u) with
       | Some l => returning true (put_user (set_membership l u) w')
       | None => (Ok (false, u), w')
       end).
Proof.
  repeat match goal with |- _ /\ _ => split end.
  - intros st e. unfold NDBUserDatastore.find_user. simpl.
    destruct (String.eqb e ""); reflexivity.
  - reflexivity.
  - intros st user role H.
    rewrite ndb_add_role_to_user_eq, ndb_remove_role_from_user_eq.
    destruct H as [H|H]; rewrite H;
      destruct (resolved_role role st), (resolved_user user st); try discriminate;
      split; reflexivity.
  - intros W R RM RE B e r w w' H.
    assert (UserDatastore._prepare_role_modify_args (Str e) (Inst r) w
            = (Ok (None, Some r), w')) as Hp.
    { unfold UserDatastore._prepare_role_modify_args, bind. rewrite H. reflexivity. }
    rewrite (add_role_to_user_eq _ _ _ _ _ _ Hp), (remove_role_from_user_eq _ _ _ _ _ _ Hp).
    split; reflexivity.
  - intros W R RM RE B u n w w' H.
    assert (UserDatastore._prepare_role_modify_args (Inst u) (Str n) w
            = (Ok (Some u, None), w')) as Hp.
    { unfold UserDatastore._prepare_role_modify_args, bind, ret. rewrite H. reflexivity. }
    rewrite (add_role_to_user_eq _ _ _ _ _ _ Hp), (remove_role_from_user_eq _ _ _ _ _ _ Hp).
    split; reflexivity.
Qed.

Lemma unresolved_arguments_propagate_witness :
  NDBUserDatastore.remove_role_from_user (Str "nobody@x.com") (Inst Sample.admin) Sample.store
  = (Raise AttributeError, Sample.store) /\
  UserDatastore.remove_role_from_user (Str "nobody@x.com") (Inst Sample.admin) Sample.world
  = (Raise AttributeError, Sample.world) /\
  UserDatastore.add_role_to_user (Inst Sample.mbob) (Str "ghost") Sample.world
  = (Ok (true, set_membership [None] Sample.mbob),
     MemoryDatastore.mkWorld [set_membership [None] Sample.mbob] [Sample.admin]) /\
  UserDatastore.remove_role_from_user (Inst Sample.mbob) (Str "ghost") Sample.world
  = (Ok (false, Sample.mbob), Sample.world).
Proof.
  destruct unresolved_arguments_propagate as (_ & _ & Hndb & Huser & Hrole).
  split; [|split].
  - apply (Hndb Sample.store (Str "nobody@x.com") (Inst Sample.admin)). left. reflexivity.
  - apply (Huser _ _ _ _ MemoryDatastore.mem_backend "nobody@x.com" Sample.admin
             Sample.world Sample.world). reflexivity.
  - destruct (Hrole _ _ _ _ MemoryDatastore.mem_backend Sample.mbob "ghost"
                Sample.world Sample.world eq_refl) as [Hadd Hrem].
    split; [etransitivity; [exact Hadd|] | etransitivity; [exact Hrem|]]; reflexivity.
Defined.

(** ** Creating users *)

(** C3, as stated, fails for the NDB backend: with a role name that
    [find_role] does not resolve, [create_user] raises [AttributeError]
    while it collects the role names; no user is built and nothing is
    stored. *)
Lemma ndb_create_user_unknown_role_counterexample :
  NDBUserDatastore.find_role "admin" Sample.empty_store = (Ok None, Sample.empty_store) /\
  NDBUserDatastore.create_user
    (mkUserKw (Some "c@x.com") None None None (Some [Str "admin"])) Sample.empty_store
  = (Raise AttributeError, Sample.empty_store) /\
  ~ (exists u st',
       NDBUserDatastore.create_user
         (mkUserKw (Some "c@x.com") None None None (Some [Str "admin"])) Sample.empty_store
       = (Ok u, st') /\ NDBUserDatastore.role_names u = []).
Proof.
  split; [reflexivity|]. split; [reflexivity|].
  intros (u & st' & H & _). discriminate H.
Qed.

(** C3, amended.  For [create_user(roles=[n])] where the lookup of [n] (a
    role name, or the name of a role instance) returns none.  Generic
    datastore: the user is built with [active] defaulting to true and with a
    [roles] list holding the single entry [None], hence no resolved role,
    and is handed to the backend's [put].  NDB backend: the call raises
    [AttributeError] on reading the name of the unresolved entry, before a
    user is built, and the store is left as it was. *)
Theorem create_user_unresolved_role :
  (forall (W R : Type) (RM : RoleModel R) (RE : RoleEq R)
          (B : Backend W (list (option R)) R)
          (kwargs : UserKw (str_or R)) (role : str_or R) (w w' : W),
     kw_roles kwargs = Some [role] ->
     find_role (entry_name role) w = (Ok None, w') ->
     UserDatastore.create_user kwargs w
     = put_user (mkUser None (kw_email kwargs) (kw_username kwargs) (kw_password kwargs)
                        (match kw_active kwargs with Some b => b | None => true end)
                        [None]) w') /\
  (forall (st : NDBUserDatastore.Store)
          (kwargs : UserKw (str_or NDBUserDatastore.Role))
          (role : str_or NDBUserDatastore.Role),
     kw_roles kwargs = Some [role] ->
     NDBUserDatastore.find_role (entry_name role) st = (Ok None, st) ->
     NDBUserDatastore.create_user kwargs st = (Raise AttributeError, st)).
Proof.
  split.
  - intros W R RM RE B kwargs role w w' Hroles Hfind.
    unfold UserDatastore.create_user, UserDatastore._prepare_create_user_args.
    rewrite Hroles. unfold entry_name in Hfind. simpl. unfold bind. rewrite Hfind.
    unfold ret, UserDatastore.user_model. simpl.
    destruct (kw_active kwargs); reflexivity.
  - intros st kwargs role Hroles Hfind.
    unfold NDBUserDatastore.create_user, UserDatastore._prepare_create_user_args.
    rewrite Hroles. unfold entry_name, NDBUserDatastore.find_role, gets in Hfind.
    simpl in Hfind. injection Hfind as Hfind.
    simpl. unfold bind, NDBUserDatastore.find_role, gets. rewrite Hfind. reflexivity.
Qed.

Lemma create_user_unresolved_role_witness :
  UserDatastore.create_user
    (mkUserKw (Some "c@x.com") None None None (Some [Str "ghost"])) Sample.world
  = (Ok (mkUser None (Some "c@x.com") None None true [None]),
     MemoryDatastore.mkWorld
       [mkUser None (Some "c@x.com") None None true [None]] [Sample.admin]) /\
  NDBUserDatastore.create_user
    (mkUserKw (Some "c@x.com") None None None (Some [Inst Sample.admin])) Sample.empty_store
  = (Raise AttributeError, Sample.empty_store).
Proof.
  destruct create_user_unresolved_role as [Hgen Hndb]. split.
  - etransitivity.
    + apply (Hgen _ _ _ _ MemoryDatastore.mem_backend
               (mkUserKw (Some "c@x.com") None None None (Some [Str "ghost"]))
               (Str "ghost") Sample.world Sample.world); reflexivity.
    + reflexivity.
  - apply (Hndb Sample.empty_store _ (Inst Sample.admin)); reflexivity.
Defined.

(** ** Roles: [create_role] and [find_or_create_role] *)

Lemma upsert_fresh {E : Type} (key_of : E -> option key_id) (p : E -> bool)
  (e : E) (l : list E) :
  py_in p l = false -> p e = true ->
  find p (NDBUserDatastore.upsert key_of e l) = Some e /\
  occurrences p (NDBUserDatastore.upsert key_of e l) = 1%nat.
Proof.
  unfold py_in, occurrences. intros Hl He. induction l as [|x l IH]; simpl.
  - rewrite He. split; reflexivity.
  - simpl in Hl. apply orb_false_iff in Hl as [Hx Hl].
    destruct (key_eqb (key_of x) (key_of e)); simpl.
    + rewrite He. split; [reflexivity|]. simpl. f_equal.
      fold (occurrences p l). apply occurrences_absent. exact Hl.
    + rewrite Hx. apply IH. exact Hl.
Qed.

(** [role.put()] always succeeds; it completes the key, keeps the name and
    stores the role as the only change to the stored roles. *)
Lemma role_put_spec (r : NDBUserDatastore.Role) (st : NDBUserDatastore.Store) :
  exists k st',
    NDBUserDatastore.role_put r st
    = (Ok (NDBUserDatastore.mkRole (Some k) (NDBUserDatastore.name r)
                                   (NDBUserDatastore.description r)), st') /\
    NDBUserDatastore.roles st'
    = NDBUserDatastore.upsert NDBUserDatastore.role_key
        (NDBUserDatastore.mkRole (Some k) (NDBUserDatastore.name r)
                                 (NDBUserDatastore.description r))
        (NDBUserDatastore.roles st) /\
    NDBUserDatastore.users st' = NDBUserDatastore.users st /\
    NDBUserDatastore.log st' = NDBUserDatastore.log st ++ [NDBUserDatastore.EvPutRole k].
Proof.
  unfold NDBUserDatastore.role_put. destruct r as [k n d]. simpl.
  destruct k as [k|]; eexists _, _; repeat split; reflexivity.
Qed.

Lemma ndb_find_or_create_role_eq (n : string) (kwargs : RoleKw)
  (st : NDBUserDatastore.Store) :
  NDBUserDatastore.find_or_create_role n kwargs st
  = match NDBUserDatastore.query_role_name n st with
    | Some r => (Ok r, st)
    | None =>
        NDBUserDatastore.role_put
          (NDBUserDatastore.Role_init (mkRoleKw n (kw_description kwargs))) st
    end.
Proof.
  unfold NDBUserDatastore.find_or_create_role, UserDatastore.find_or_create_role.
  unfold bind. simpl. unfold NDBUserDatastore.find_role, gets.
  destruct (NDBUserDatastore.query_role_name n st); reflexivity.
Qed.

(** C9.  [find_or_create_role] is idempotent by name.  For every backend: a
    role that [find_role] finds is returned and nothing is created;
    otherwise the role built from the name and the attributes goes to
    [create_role], that is to the backend's [put].  NDB backend: an existing
    role with the name is returned with the store untouched; otherwise the
    created role carries the name and is stored.  When at most one stored
    role carries the name beforehand, two calls in a row (whatever their
    attributes) return the same role, the second changes nothing, and
    exactly one stored role carries the name afterwards. *)
Theorem find_or_create_role_idempotent :
  (forall (W C R : Type) (RM : RoleModel R) (B : Backend W C R)
          (n : string) (kwargs : RoleKw) (w w' : W) (r : R),
     find_role n w = (Ok (Some r), w') ->
     UserDatastore.find_or_create_role n kwargs w = (Ok r, w')) /\
  (forall (W C R : Type) (RM : RoleModel R) (B : Backend W C R)
          (n : string) (kwargs : RoleKw) (w w' : W),
     find_role n w = (Ok None, w') ->
     UserDatastore.find_or_create_role n kwargs w
     = UserDatastore.create_role (mkRoleKw n (kw_description kwargs)) w' /\
     UserDatastore.create_role (mkRoleKw n (kw_description kwargs)) w'
     = put_role (role_model (mkRoleKw n (kw_description kwargs))) w') /\
  (forall (st : NDBUserDatastore.Store) (n : string) (kwargs : RoleKw) r,
     NDBUserDatastore.query_role_name n st = Some r ->
     NDBUserDatastore.find_or_create_role n kwargs st = (Ok r, st)) /\
  (forall (st : NDBUserDatastore.Store) (n : string) (kw1 kw2 : RoleKw),
     (roles_named n st <= 1)%nat ->
     exists r st1,
       NDBUserDatastore.find_or_create_role n kw1 st = (Ok r, st1) /\
       NDBUserDatastore.name r = n /\
       In r (NDBUserDatastore.roles st1) /\
       NDBUserDatastore.find_or_create_role n kw2 st1 = (Ok r, st1) /\
       roles_named n st1 = 1%nat).
Proof.
  repeat match goal with |- _ /\ _ => split end.
  - intros W C R RM B n kwargs w w' r H.
    unfold UserDatastore.find_or_create_role, bind. rewrite H. reflexivity.
  - intros W C R RM B n kwargs w w' H. split; [|reflexivity].
    unfold UserDatastore.find_or_create_role, bind. rewrite H. reflexivity.
  - intros st n kwargs r H. rewrite ndb_find_or_create_role_eq, H. reflexivity.
  - intros st n kw1 kw2 Hle.
    destruct (NDBUserDatastore.query_role_name n st) as [r|] eqn:Hq.
    + exists r, st. destruct (query_role_name_hit _ _ _ Hq) as [Hin Hname].
      rewrite !ndb_find_or_create_role_eq, Hq.
      repeat split; try assumption.
      assert (py_in (fun r => String.eqb (NDBUserDatastore.name r) n)
                    (NDBUserDatastore.roles st) = true) as Hp.
      { unfold py_in. apply existsb_exists. exists r. split; [assumption|].
        subst n. apply String.eqb_refl. }
      apply occurrences_present in Hp. unfold roles_named in *. lia.
    + destruct (role_put_spec
                  (NDBUserDatastore.Role_init (mkRoleKw n (kw_description kw1))) st)
        as (k & st1 & Hput & Hroles & _).
      simpl in Hput, Hroles.
      assert (py_in (fun r => String.eqb (NDBUserDatastore.name r) n)
                    (NDBUserDatastore.roles st) = false) as Hp.
      { unfold py_in. apply not_true_is_false. intros Hex.
        apply existsb_exists in Hex as [x [Hx Hn]].
        unfold NDBUserDatastore.query_role_name in Hq.
        apply (find_none _ _ Hq) in Hx. congruence. }
      destruct (upsert_fresh NDBUserDatastore.role_key
                  (fun r => String.eqb (NDBUserDatastore.name r) n)
                  (NDBUserDatastore.mkRole (Some k) n (kw_description kw1))
                  (NDBUserDatastore.roles st) Hp (String.eqb_refl n))
        as [Hfind Hocc].
      eexists _, st1. rewrite ndb_find_or_create_role_eq, Hq.
      split; [exact Hput|]. split; [reflexivity|].
      split; [rewrite Hroles; apply upsert_In|].
      split.
      * rewrite ndb_find_or_create_role_eq.
        unfold NDBUserDatastore.query_role_name. rewrite Hroles, Hfind. reflexivity.
      * unfold roles_named. rewrite Hroles. exact Hocc.
Qed.

Lemma find_or_create_role_idempotent_witness :
  exists st1,
    NDBUserDatastore.find_or_create_role "admin" (mkRoleKw "" (Some "first"))
      Sample.empty_store
    = (Ok (NDBUserDatastore.mkRole (Some (StrId "admin")) "admin" (Some "first")), st1) /\
    NDBUserDatastore.find_or_create_role "admin" (mkRoleKw "" (Some "second")) st1
    = (Ok (NDBUserDatastore.mkRole (Some (StrId "admin")) "admin" (Some "first")), st1) /\
    roles_named "admin" st1 = 1%nat.
Proof.
  destruct find_or_create_role_idempotent as (_ & _ & _ & Htwice).
  destruct (Htwice Sample.empty_store "admin" (mkRoleKw "" (Some "first"))
              (mkRoleKw "" (Some "second")))
    as (r & st1 & H1 & _ & _ & H2 & Hone).
  - vm_compute. lia.
  - assert (Hc := H1). vm_compute in Hc. injection Hc as <- <-.
    eexists. split; [exact H1|]. split; [exact H2 | exact Hone].
Defined.

(** ** Each role at most once *)

Lemma names_at_most_once_add (l : list string) (n : string) :
  names_at_most_once l ->
  py_in (String.eqb n) l = false ->
  names_at_most_once (l ++ [n]).
Proof.
  intros Hl Hnin x. rewrite occurrences_app. unfold occurrences at 2. simpl.
  destruct (String.eqb x n) eqn:E; simpl; [|specialize (Hl x); lia].
  apply String.eqb_eq in E. subst x. rewrite (occurrences_absent _ _ Hnin). lia.
Qed.

Lemma names_at_most_once_remove (l l' : list string) (n : string) :
  names_at_most_once l ->
  py_remove (String.eqb n) l = Some l' ->
  names_at_most_once l'.
Proof.
  intros Hl Hrm x.
  destruct (py_in (String.eqb n) l) eqn:Hin.
  - destruct (py_remove_present _ _ Hin) as [l0 [Hrm0 [_ Hq]]].
    rewrite Hrm in Hrm0. injection Hrm0 as ->.
    specialize (Hq (String.eqb x)). specialize (Hl x). lia.
  - rewrite (py_remove_absent _ _ Hin) in Hrm. discriminate.
Qed.

Lemma user_put_role_names (u u' : NDBUserDatastore.NUser)
  (st st' : NDBUserDatastore.Store) :
  NDBUserDatastore.user_put u st = (Ok u', st') ->
  NDBUserDatastore.role_names u' = NDBUserDatastore.role_names u.
Proof.
  intros H. destruct (user_put_spec u st) as (k & st1 & Hput & _).
  rewrite Hput in H. injection H as <- _. reflexivity.
Qed.

(** One call keeps every role name at most once. *)
Lemma ndb_call_keeps_names (c : ndb_call) (b : bool)
  (u u' : NDBUserDatastore.NUser) (st st' : NDBUserDatastore.Store) :
  names_at_most_once (NDBUserDatastore.role_names u) ->
  ndb_run_call c u st = (Ok (b, u'), st') ->
  names_at_most_once (NDBUserDatastore.role_names u').
Proof.
  intros Hu Hc. destruct c as [role|role| | |]; simpl in Hc.
  - rewrite ndb_add_role_to_user_eq in Hc. simpl in Hc.
    destruct (resolved_role role st) as [r|]; [|discriminate].
    destruct (py_in (String.eqb (NDBUserDatastore.name r)) (NDBUserDatastore.role_names u))
      eqn:Hin.
    + injection Hc as _ <- _. exact Hu.
    + destruct (NDBUserDatastore.user_put _ st) as [[u1|e] st1] eqn:Hput;
        simpl in Hc; [|discriminate].
      injection Hc as _ <- _. rewrite (user_put_role_names _ _ _ _ Hput).
      apply names_at_most_once_add; assumption.
  - rewrite ndb_remove_role_from_user_eq in Hc. simpl in Hc.
    destruct (resolved_role role st) as [r|]; [|discriminate].
    destruct (py_remove (String.eqb (NDBUserDatastore.name r))
                        (NDBUserDatastore.role_names u)) as [names|] eqn:Hrm.
    + destruct (NDBUserDatastore.user_put _ st) as [[u1|e] st1] eqn:Hput;
        simpl in Hc; [|discriminate].
      injection Hc as _ <- _. rewrite (user_put_role_names _ _ _ _ Hput).
      apply (names_at_most_once_remove _ _ _ Hu Hrm).
    + injection Hc as _ <- _. exact Hu.
  - injection Hc as _ <- _. exact Hu.
  - unfold NDBUserDatastore.activate_user, UserDatastore.activate_user in Hc.
    destruct (active u); injection Hc as _ <- _; exact Hu.
  - unfold NDBUserDatastore.deactivate_user, UserDatastore.deactivate_user in Hc.
    destruct (active u); injection Hc as _ <- _; exact Hu.
Qed.

(** The names [create_user] of the NDB backend collects are the names the
    entries were looked up by, in the order given. *)
Lemma ndb_names_of_lookup (st st' : NDBUserDatastore.Store)
  (l : list (str_or NDBUserDatastore.Role)) (ns : list string) :
  NDBUserDatastore.names_of
    (map (fun role => NDBUserDatastore.query_role_name (entry_name role) st) l) st
  = (Ok ns, st') ->
  ns = map entry_name l /\ st' = st.
Proof.
  revert ns. induction l as [|role l IH]; simpl; intros ns H.
  - injection H as <- <-. split; reflexivity.
  - unfold NDBUserDatastore.names_of in *. simpl in H. unfold bind in H.
    destruct (NDBUserDatastore.query_role_name (entry_name role) st) as [r|] eqn:Hq;
      simpl in H; [|discriminate].
    destruct (mapM _ _ st) as [[ns'|e] st1] eqn:Hm; [|discriminate].
    injection H as <- <-. destruct (IH ns' eq_refl) as [-> ->].
    apply query_role_name_hit in Hq as [_ ->]. split; reflexivity.
Qed.

Lemma ndb_lookup_all (st : NDBUserDatastore.Store)
  (l : list (str_or NDBUserDatastore.Role)) :
  mapM (fun role => find_role (entry_name role)) l st
  = (Ok (map (fun role => NDBUserDatastore.query_role_name (entry_name role) st) l), st).
Proof.
  induction l as [|role l IH]; [reflexivity|].
  cbn [mapM map]. unfold bind at 1.
  change (find_role (entry_name role) st)
    with (Ok (NDBUserDatastore.query_role_name (entry_name role) st), st).
  cbv beta iota. unfold bind at 1. rewrite IH. reflexivity.
Qed.

Lemma ndb_create_user_role_names
  (kwargs : UserKw (str_or NDBUserDatastore.Role))
  (u : NDBUserDatastore.NUser) (st st' : NDBUserDatastore.Store) :
  NDBUserDatastore.create_user kwargs st = (Ok u, st') ->
  NDBUserDatastore.role_names u = map entry_name (requested_roles kwargs).
Proof.
  unfold NDBUserDatastore.create_user, UserDatastore._prepare_create_user_args.
  fold (requested_roles kwargs). intros H.
  unfold bind at 1 in H. unfold bind at 1 in H.
  change (fun role : str_or NDBUserDatastore.Role =>
            let rn := match role with
                      | Inst r => role_name r
                      | Str s => s
                      end in find_role rn)
    with (fun role : str_or NDBUserDatastore.Role => find_role (entry_name role)) in H.
  rewrite ndb_lookup_all in H. unfold ret at 1 in H. simpl in H.
  unfold bind at 1 in H. unfold ret at 1 in H.
  unfold bind at 1 in H.
  destruct (NDBUserDatastore.names_of _ st) as [[ns|e] st1] eqn:Hn; [|discriminate].
  apply ndb_names_of_lookup in Hn as [-> ->].
  apply user_put_role_names in H. exact H.
Qed.

Lemma mem_role_eq_equiv : role_eq_equiv MemoryDatastore.MRole.
Proof.
  unfold role_eq_equiv, role_eq, MemoryDatastore.mem_role_eq. repeat split.
  - intros a. apply String.eqb_refl.
  - intros a b H. apply String.eqb_eq in H. rewrite H. apply String.eqb_refl.
  - intros a b c H1 H2. apply String.eqb_eq in H1, H2. rewrite H1, H2.
    apply String.eqb_refl.
Qed.

Lemma mem_put_keeps_roles : put_keeps_roles MemoryDatastore.mem_backend.
Proof.
  intros u w u' w' H. simpl in H. unfold MemoryDatastore.mem_put_user in H.
  injection H as <- _. reflexivity.
Qed.

(** Any sequence of calls keeps every role name at most once. *)
Lemma ndb_reaches_keeps_names (s s' : NDBUserDatastore.NUser * NDBUserDatastore.Store) :
  ndb_reaches s s' ->
  names_at_most_once (NDBUserDatastore.role_names (fst s)) ->
  names_at_most_once (NDBUserDatastore.role_names (fst s')).
Proof.
  induction 1 as [s|c b u u' st st' s Hcall Hreach IH]; simpl; intros Hu.
  - exact Hu.
  - apply IH. simpl. apply (ndb_call_keeps_names _ _ _ _ _ _ Hu Hcall).
Qed.

(** One [add_role_to_user] or [remove_role_from_user] of the NDB backend,
    whatever the form of its arguments, keeps every role name at most
    once. *)
Lemma ndb_role_op_keeps_names (st st' : NDBUserDatastore.Store)
  (user : str_or NDBUserDatastore.NUser) (role : str_or NDBUserDatastore.Role)
  (u u' : NDBUserDatastore.NUser) (b : bool) :
  resolved_user user st = Some u ->
  names_at_most_once (NDBUserDatastore.role_names u) ->
  (NDBUserDatastore.add_role_to_user user role st = (Ok (b, u'), st') ->
   names_at_most_once (NDBUserDatastore.role_names u')) /\
  (NDBUserDatastore.remove_role_from_user user role st = (Ok (b, u'), st') ->
   names_at_most_once (NDBUserDatastore.role_names u')).
Proof.
  intros Hres Hu. split; intros Hc.
  - rewrite ndb_add_role_to_user_eq, Hres in Hc.
    destruct (resolved_role role st) as [r|]; [|discriminate].
    destruct (py_in (String.eqb (NDBUserDatastore.name r)) (NDBUserDatastore.role_names u))
      eqn:Hin.
    + injection Hc as _ <- _. exact Hu.
    + destruct (NDBUserDatastore.user_put _ st) as [[u1|e] st1] eqn:Hput;
        simpl in Hc; [|discriminate].
      injection Hc as _ <- _. rewrite (user_put_role_names _ _ _ _ Hput).
      apply names_at_most_once_add; assumption.
  - rewrite ndb_remove_role_from_user_eq, Hres in Hc.
    destruct (resolved_role role st) as [r|]; [|discriminate].
    destruct (py_remove (String.eqb (NDBUserDatastore.name r))
                        (NDBUserDatastore.role_names u)) as [names|] eqn:Hrm.
    + destruct (NDBUserDatastore.user_put _ st) as [[u1|e] st1] eqn:Hput;
        simpl in Hc; [|discriminate].
      injection Hc as _ <- _. rewrite (user_put_role_names _ _ _ _ Hput).
      apply (names_at_most_once_remove _ _ _ Hu Hrm).
    + injection Hc as _ <- _. exact Hu.
Qed.

(** The generic [create_user]: the lookups of the entries, in order, then
    the user built from their results and handed to [put]. *)
Lemma create_user_lookup_results {W R : Type} {RM : RoleModel R} {RE : RoleEq R}
  {B : Backend W (list (option R)) R}
  (kwargs : UserKw (str_or R)) (l : list (option R)) (w w1 : W) :
  mapM (fun role : str_or R => find_role (entry_name role)) (requested_roles kwargs) w
  = (Ok l, w1) ->
  UserDatastore.create_user kwargs w
  = put_user (mkUser None (kw_email kwargs) (kw_username kwargs) (kw_password kwargs)
                     (match kw_active kwargs with Some b => b | None => true end) l) w1.
Proof.
  intros Hl. unfold UserDatastore.create_user, UserDatastore._prepare_create_user_args.
  fold (requested_roles kwargs). unfold bind at 1. unfold bind at 1.
  unfold entry_name in Hl.
  rewrite Hl. unfold ret, UserDatastore.user_model. simpl.
  destruct (kw_active kwargs); reflexivity.
Qed.




(** * Further properties of the datastore *)

(** ** Stored users read back *)

Lemma key_id_eqb_refl (k : key_id) : key_id_eqb k k = true.
Proof. apply key_id_eqb_eq. reflexivity. Qed.

Lemma key_eqb_true_eq (a b : option key_id) : key_eqb a b = true -> a = b.
Proof.
  destruct a as [x|], b as [y|]; simpl; try discriminate.
  intros H. apply key_id_eqb_eq in H. now subst.
Qed.

Lemma find_upsert_key (u : NDBUserDatastore.NUser) (l : list NDBUserDatastore.NUser)
  (k : key_id) :
  key u = Some k ->
  find (fun x => key_eqb (key x) (Some k)) (NDBUserDatastore.upsert key u l) = Some u.
Proof.
  intros Hk. induction l as [|x l IH]; simpl.
  - rewrite Hk. simpl. rewrite key_id_eqb_refl. reflexivity.
  - rewrite Hk. destruct (key_eqb (key x) (Some k)) eqn:E; simpl.
    + rewrite Hk. simpl. rewrite key_id_eqb_refl. reflexivity.
    + rewrite E. exact IH.
Qed.

Lemma user_put_reads_back (u u' : NDBUserDatastore.NUser)
  (st st' : NDBUserDatastore.Store) (i : Z) :
  NDBUserDatastore.user_put u st = (Ok u', st') ->
  key u' = Some (IntId i) ->
  NDBUserDatastore.get_by_id i st' = Some u'.
Proof.
  unfold NDBUserDatastore.user_put, NDBUserDatastore.get_by_id.
  destruct (key u) as [k|] eqn:Hk; intros H Hi; injection H as <- <-; simpl.
  - apply find_upsert_key. exact Hi.
  - apply find_upsert_key. exact Hi.
Qed.

Lemma returning_ok {W A B : Type} (b b' : B) (r : result A * W) (a : A) (w : W) :
  returning b r = (Ok (b', a), w) -> r = (Ok a, w) /\ b' = b.
Proof.
  destruct r as [[x|e] w0]; simpl; intros H; [|discriminate].
  injection H as <- <- <-. split; reflexivity.
Qed.

Lemma ndb_names_of_eq (st : NDBUserDatastore.Store)
  (l : list (str_or NDBUserDatastore.Role)) :
  NDBUserDatastore.names_of
    (map (fun role => NDBUserDatastore.query_role_name (entry_name role) st) l) st
  = if forallb (resolves st) l then (Ok (map entry_name l), st)
    else (Raise AttributeError, st).
Proof.
  unfold NDBUserDatastore.names_of. induction l as [|role l IH]; [reflexivity|].
  cbn [map mapM forallb]. unfold bind at 1. unfold resolves at 1.
  destruct (NDBUserDatastore.query_role_name (entry_name role) st) as [r|] eqn:Hq;
    [|reflexivity].
  cbn [getattr ret andb]. unfold bind at 1. rewrite IH.
  destruct (forallb (resolves st) l); [|reflexivity].
  apply query_role_name_hit in Hq as [_ ->]. reflexivity.
Qed.

Lemma ndb_create_user_eq (kwargs : UserKw (str_or NDBUserDatastore.Role))
  (st : NDBUserDatastore.Store) :
  NDBUserDatastore.create_user kwargs st
  = if forallb (resolves st) (requested_roles kwargs)
    then NDBUserDatastore.user_put
           (mkUser None (kw_email kwargs) (kw_username kwargs) (kw_password kwargs)
                   (match kw_active kwargs with Some b => b | None => true end)
                   (map entry_name (requested_roles kwargs))) st
    else (Raise AttributeError, st).
Proof.
  unfold NDBUserDatastore.create_user, UserDatastore._prepare_create_user_args.
  fold (requested_roles kwargs).
  unfold bind at 1. unfold bind at 1.
  change (fun role : str_or NDBUserDatastore.Role =>
            let rn := match role with
                      | Inst r => role_name r
                      | Str s => s
                      end in find_role rn)
    with (fun role : str_or NDBUserDatastore.Role => find_role (entry_name role)).
  rewrite ndb_lookup_all. unfold ret at 1. cbn [kw_roles kw_email kw_username
    kw_password kw_active].
  unfold bind at 1. unfold ret at 1. unfold bind at 1.
  rewrite ndb_names_of_eq.
  destruct (forallb (resolves st) (requested_roles kwargs)); [|reflexivity].
  unfold NDBUserDatastore.put_user, NDBUserDatastore.user_model. simpl.
  destruct (kw_active kwargs); reflexivity.
Qed.

Lemma resolves_all (st : NDBUserDatastore.Store) (l : list (str_or NDBUserDatastore.Role)) :
  forallb (resolves st) l = true <->
  forall role, In role l -> NDBUserDatastore.query_role_name (entry_name role) st <> None.
Proof.
  rewrite forallb_forall. unfold resolves. split; intros H role Hin; specialize (H role Hin).
  - destruct (NDBUserDatastore.query_role_name (entry_name role) st); congruence.
  - destruct (NDBUserDatastore.query_role_name (entry_name role) st); congruence.
Qed.

Lemma resolves_some_not (st : NDBUserDatastore.Store)
  (l : list (str_or NDBUserDatastore.Role)) (role : str_or NDBUserDatastore.Role) :
  In role l -> NDBUserDatastore.query_role_name (entry_name role) st = None ->
  forallb (resolves st) l = false.
Proof.
  intros Hin Hq. apply not_true_is_false. intros H.
  apply (proj1 (resolves_all st l) H role Hin Hq).
Qed.

Lemma ndb_get_user_long (st : NDBUserDatastore.Store) (i : Z) :
  NDBUserDatastore.get_user (PyLong i) st
  = (Ok (NDBUserDatastore.get_by_id i st), NDBUserDatastore.bind_long st).
Proof. reflexivity. Qed.

Lemma upsert_append (u : NDBUserDatastore.NUser) (l : list NDBUserDatastore.NUser) :
  (forall x, In x l -> key x <> key u) ->
  NDBUserDatastore.upsert key u l = l ++ [u].
Proof.
  induction l as [|x l IH]; simpl; intros H; [reflexivity|].
  destruct (key_eqb (key x) (key u)) eqn:E.
  - apply key_eqb_true_eq in E. exfalso. apply (H x); [now left | exact E].
  - rewrite IH; [reflexivity|]. intros y Hy. apply H. now right.
Qed.

(** X1.  What the NDB backend persists reads back: when [add_role_to_user]
    or [remove_role_from_user] reports a change, or [create_user] returns,
    fetching the returned user's integer id with [get_user] yields exactly
    the returned user. *)
Theorem ndb_persisted_user_reads_back :
  (forall (st st' : NDBUserDatastore.Store) user role (u' : NDBUserDatastore.NUser) (i : Z),
     NDBUserDatastore.add_role_to_user user role st = (Ok (true, u'), st') ->
     key u' = Some (IntId i) ->
     NDBUserDatastore.get_user (PyLong i) st'
     = (Ok (Some u'), NDBUserDatastore.bind_long st')) /\
  (forall (st st' : NDBUserDatastore.Store) user role (u' : NDBUserDatastore.NUser) (i : Z),
     NDBUserDatastore.remove_role_from_user user role st = (Ok (true, u'), st') ->
     key u' = Some (IntId i) ->
     NDBUserDatastore.get_user (PyLong i) st'
     = (Ok (Some u'), NDBUserDatastore.bind_long st')) /\
  (forall (st st' : NDBUserDatastore.Store) kwargs (u : NDBUserDatastore.NUser),
     NDBUserDatastore.create_user kwargs st = (Ok u, st') ->
     exists i,
       key u = Some (IntId i) /\
       NDBUserDatastore.get_user (PyLong i) st'
       = (Ok (Some u), NDBUserDatastore.bind_long st')).
Proof.
  split; [|split].
  - intros st st' user role u' i H Hk. rewrite ndb_add_role_to_user_eq in H.
    destruct (resolved_role role st) as [r|]; [|discriminate].
    destruct (resolved_user user st) as [u|]; [|discriminate].
    destruct (py_in _ _); [discriminate|].
    apply returning_ok in H as [H _].
    rewrite ndb_get_user_long, (user_put_reads_back _ _ _ _ _ H Hk). reflexivity.
  - intros st st' user role u' i H Hk. rewrite ndb_remove_role_from_user_eq in H.
    destruct (resolved_role role st) as [r|]; [|discriminate].
    destruct (resolved_user user st) as [u|]; [|discriminate].
    destruct (py_remove _ _); [|discriminate].
    apply returning_ok in H as [H _].
    rewrite ndb_get_user_long, (user_put_reads_back _ _ _ _ _ H Hk). reflexivity.
  - intros st st' kwargs u H. rewrite ndb_create_user_eq in H.
    destruct (forallb _ _); [|discriminate].
    assert (key u = Some (IntId (NDBUserDatastore.next_id st))) as Hk.
    { unfold NDBUserDatastore.user_put in H. simpl in H. injection H as <- _. reflexivity. }
    exists (NDBUserDatastore.next_id st). split; [exact Hk|].
    rewrite ndb_get_user_long, (user_put_reads_back _ _ _ _ _ H Hk). reflexivity.
Qed.

Lemma ndb_persisted_user_reads_back_witness :
  exists st',
    NDBUserDatastore.add_role_to_user (Str "a@x.com") (Str "admin") Sample.store
    = (Ok (true, set_membership ["admin"] Sample.bob), st') /\
    NDBUserDatastore.get_user (PyLong 7) st'
    = (Ok (Some (set_membership ["admin"] Sample.bob)), NDBUserDatastore.bind_long st').
Proof.
  destruct ndb_persisted_user_reads_back as (Hadd & _ & _).
  eexists. split; [cbv; reflexivity|].
  apply (Hadd Sample.store _ (Str "a@x.com") (Str "admin")); reflexivity.
Defined.

(** X2.  [create_user] of the NDB backend succeeds exactly when every
    [roles] entry is found by [find_role].  Then the user is built with the
    attributes given, [active] defaulting to true, the looked-up role names
    in the order given and the id of the store's id counter as key, and is
    stored; the stored roles are untouched and one [put] is recorded.  When
    no stored user has that id, every stored user is kept and the new user
    comes after them.  If some entry is not found the call raises
    [AttributeError] and the store is left as it was. *)
Theorem ndb_create_user_outcome
  (kwargs : UserKw (str_or NDBUserDatastore.Role)) (st : NDBUserDatastore.Store) :
  ((forall role, In role (requested_roles kwargs) ->
      NDBUserDatastore.query_role_name (entry_name role) st <> None) ->
   exists st',
     NDBUserDatastore.create_user kwargs st
     = (Ok (mkUser (Some (IntId (NDBUserDatastore.next_id st)))
                   (kw_email kwargs) (kw_username kwargs) (kw_password kwargs)
                   (match kw_active kwargs with Some b => b | None => true end)
                   (map entry_name (requested_roles kwargs))), st') /\
     In (mkUser (Some (IntId (NDBUserDatastore.next_id st)))
                (kw_email kwargs) (kw_username kwargs) (kw_password kwargs)
                (match kw_active kwargs with Some b => b | None => true end)
                (map entry_name (requested_roles kwargs)))
        (NDBUserDatastore.users st') /\
     ((forall x, In x (NDBUserDatastore.users st) ->
                 key x <> Some (IntId (NDBUserDatastore.next_id st))) ->
      NDBUserDatastore.users st'
      = NDBUserDatastore.users st
        ++ [mkUser (Some (IntId (NDBUserDatastore.next_id st)))
                   (kw_email kwargs) (kw_username kwargs) (kw_password kwargs)
                   (match kw_active kwargs with Some b => b | None => true end)
                   (map entry_name (requested_roles kwargs))]) /\
     NDBUserDatastore.roles st' = NDBUserDatastore.roles st /\
     NDBUserDatastore.next_id st' = (NDBUserDatastore.next_id st + 1)%Z /\
     NDBUserDatastore.log st'
     = NDBUserDatastore.log st
       ++ [NDBUserDatastore.EvPutUser (IntId (NDBUserDatastore.next_id st))]) /\
  (forall role, In role (requested_roles kwargs) ->
     NDBUserDatastore.query_role_name (entry_name role) st = None ->
     NDBUserDatastore.create_user kwargs st = (Raise AttributeError, st)).
Proof.
  split.
  - intros Hall. apply resolves_all in Hall. rewrite ndb_create_user_eq, Hall.
    unfold NDBUserDatastore.user_put. simpl. eexists. split; [reflexivity|]. simpl.
    split; [apply upsert_In|]. split; [|repeat split].
    intros Hfree. apply upsert_append. simpl. exact Hfree.
  - intros role Hin Hq. rewrite ndb_create_user_eq, (resolves_some_not _ _ _ Hin Hq).
    reflexivity.
Qed.

Lemma ndb_create_user_outcome_witness :
  (exists st',
     NDBUserDatastore.create_user
       (mkUserKw (Some "c@x.com") None None (Some false) (Some [Str "admin"]))
       Sample.store
     = (Ok (mkUser (Some (IntId 8)) (Some "c@x.com") None None false ["admin"]), st') /\
     NDBUserDatastore.users st'
     = [Sample.alice; Sample.bob;
        mkUser (Some (IntId 8)) (Some "c@x.com") None None false ["admin"]]) /\
  NDBUserDatastore.create_user
    (mkUserKw (Some "c@x.com") None None None (Some [Str "admin"; Str "ghost"]))
    Sample.store
  = (Raise AttributeError, Sample.store).
Proof.
  split.
  - destruct (ndb_create_user_outcome
                (mkUserKw (Some "c@x.com") None None (Some false) (Some [Str "admin"]))
                Sample.store) as [Hok _].
    destruct Hok as (st' & H & _ & Hkept & _).
    + intros role [<-|[]]. discriminate.
    + exists st'. split; [exact H|]. apply Hkept.
      intros x [<-|[<-|[]]]; discriminate.
  - destruct (ndb_create_user_outcome
                (mkUserKw (Some "c@x.com") None None None (Some [Str "admin"; Str "ghost"]))
                Sample.store) as [_ Hraise].
    apply (Hraise (Str "ghost")); [simpl; auto | reflexivity].
Defined.

(** ** Role entries of [create_user] *)

Lemma mapM_map {W A B D : Type} (f : B -> St W D) (g : A -> B) (l : list A) (w : W) :
  mapM f (map g l) w = mapM (fun x => f (g x)) l w.
Proof.
  revert w. induction l as [|x l IH]; intros w; [reflexivity|].
  cbn [map mapM]. unfold bind at 1 3. destruct (f (g x) w) as [[y|e] w1]; [|reflexivity].
  unfold bind at 1 2. rewrite IH. reflexivity.
Qed.

Lemma mapM_ext {W A B : Type} (f g : A -> St W B) (l : list A) (w : W) :
  (forall x w, f x w = g x w) -> mapM f l w = mapM g l w.
Proof.
  intros Hfg. revert w. induction l as [|x l IH]; intros w; [reflexivity|].
  cbn [mapM]. unfold bind at 1 3. rewrite Hfg. destruct (g x w) as [[y|e] w1]; [|reflexivity].
  unfold bind at 1 2. rewrite IH. reflexivity.
Qed.

Lemma prepare_create_user_args_by_name {W C R : Type} {RM : RoleModel R}
  {B : Backend W C R} (kwargs : UserKw (str_or R)) (w : W) :
  UserDatastore._prepare_create_user_args (by_name kwargs) w
  = UserDatastore._prepare_create_user_args kwargs w.
Proof.
  unfold UserDatastore._prepare_create_user_args, by_name. cbn [kw_roles kw_active
    kw_email kw_username kw_password].
  destruct (kw_roles kwargs) as [l|]; [|reflexivity].
  unfold bind. rewrite mapM_map.
  rewrite (mapM_ext _ (fun role : str_or R =>
                         let rn := match role with
                                   | Inst r => role_name r
                                   | Str s => s
                                   end in find_role rn) l w).
  - reflexivity.
  - intros [r|s] w0; reflexivity.
Qed.

(** X3.  [create_user] uses a role instance in [roles] only for its name:
    giving the instances or giving their names is the same call, in the
    generic datastore and in the NDB backend.  The entry stored is whatever
    [find_role] returns for the name, never the instance handed in. *)
Theorem create_user_role_instances_by_name :
  (forall (W R : Type) (RM : RoleModel R) (RE : RoleEq R)
          (B : Backend W (list (option R)) R) (kwargs : UserKw (str_or R)) (w : W),
     UserDatastore.create_user (by_name kwargs) w = UserDatastore.create_user kwargs w) /\
  (forall (kwargs : UserKw (str_or NDBUserDatastore.Role)) (st : NDBUserDatastore.Store),
     NDBUserDatastore.create_user (by_name kwargs) st
     = NDBUserDatastore.create_user kwargs st).
Proof.
  split.
  - intros W R RM RE B kwargs w. unfold UserDatastore.create_user.
    unfold bind. rewrite prepare_create_user_args_by_name. reflexivity.
  - intros kwargs st. unfold NDBUserDatastore.create_user.
    unfold bind at 1 5. rewrite prepare_create_user_args_by_name. reflexivity.
Qed.

(** ** Adding and removing in sequence *)

Lemma py_remove_last {A : Type} (p : A -> bool) (l : list A) (x : A) :
  py_in p l = false -> p x = true -> py_remove p (l ++ [x]) = Some l.
Proof.
  unfold py_in. intros Hl Hx. induction l as [|y l IH]; simpl.
  - rewrite Hx. reflexivity.
  - simpl in Hl. apply orb_false_iff in Hl as [Hy Hl]. rewrite Hy, (IH Hl). reflexivity.
Qed.

(** X4.  In the NDB backend, adding a role the user does not have and then
    removing it gives back the user's original [role_names], order
    included; both calls return true and each records one [put] of the
    user.  The user ends as it started, except that its key is now set. *)
Theorem ndb_add_then_remove_restores :
  forall (st : NDBUserDatastore.Store) user role u r,
    resolved_user user st = Some u ->
    resolved_role role st = Some r ->
    ~ In (NDBUserDatastore.name r) (NDBUserDatastore.role_names u) ->
    exists u1 st1 u2 st2 k,
      NDBUserDatastore.add_role_to_user user role st = (Ok (true, u1), st1) /\
      NDBUserDatastore.remove_role_from_user (Inst u1) role st1 = (Ok (true, u2), st2) /\
      NDBUserDatastore.role_names u2 = NDBUserDatastore.role_names u /\
      u2 = set_key (Some k) u /\
      k = match key u with
          | Some k => k
          | None => IntId (NDBUserDatastore.next_id st)
          end /\
      NDBUserDatastore.log st2
      = NDBUserDatastore.log st
        ++ [NDBUserDatastore.EvPutUser k; NDBUserDatastore.EvPutUser k].
Proof.
  intros st user role u r Hu Hr Hnin. apply py_in_not_In in Hnin.
  destruct (user_put_spec
              (set_membership
                 (NDBUserDatastore.role_names u ++ [NDBUserDatastore.name r]) u) st)
    as (k & st1 & Hput1 & Hk & _ & Hroles1 & Hlog1).
  destruct (user_put_spec
              (set_membership (NDBUserDatastore.role_names u)
                 (set_key (Some k)
                    (set_membership
                       (NDBUserDatastore.role_names u ++ [NDBUserDatastore.name r]) u)))
              st1)
    as (k2 & st2 & Hput2 & Hk2 & _ & _ & Hlog2).
  simpl in Hk, Hk2. subst k2.
  eexists _, st1, _, st2, k.
  split; [rewrite ndb_add_role_to_user_eq, Hu, Hr, Hnin, Hput1; reflexivity|].
  split.
  - rewrite ndb_remove_role_from_user_eq, (resolved_role_roles _ _ _ Hroles1), Hr.
    cbn [resolved_user]. unfold NDBUserDatastore.role_names at 1. cbn [membership set_key
      set_membership].
    rewrite (py_remove_last _ _ _ Hnin (String.eqb_refl _)).
    fold (NDBUserDatastore.role_names u). rewrite Hput2. reflexivity.
  - split; [reflexivity|]. split; [destruct u; reflexivity|]. split; [exact Hk|].
    rewrite Hlog2, Hlog1, <- app_assoc. reflexivity.
Qed.

Lemma ndb_add_then_remove_restores_witness :
  exists u1 st1 u2 st2 k,
    NDBUserDatastore.add_role_to_user (Inst Sample.bob) (Str "admin") Sample.store
    = (Ok (true, u1), st1) /\
    NDBUserDatastore.remove_role_from_user (Inst u1) (Str "admin") st1 = (Ok (true, u2), st2) /\
    NDBUserDatastore.role_names u2 = NDBUserDatastore.role_names Sample.bob /\
    u2 = set_key (Some k) Sample.bob /\
    k = IntId 7 /\
    NDBUserDatastore.log st2
    = NDBUserDatastore.log Sample.store
      ++ [NDBUserDatastore.EvPutUser k; NDBUserDatastore.EvPutUser k].
Proof.
  apply (ndb_add_then_remove_restores Sample.store (Inst Sample.bob) (Str "admin")
           Sample.bob Sample.admin eq_refl eq_refl).
  simpl. intros [].
Defined.

(** ** Deleting users *)

Lemma key_eqb_some (a : option key_id) (k : key_id) :
  key_eqb a (Some k) = true <-> a = Some k.
Proof.
  destruct a as [x|]; simpl.
  - rewrite key_id_eqb_eq. split; congruence.
  - split; discriminate.
Qed.

Lemma find_filter_out {A : Type} (p : A -> bool) (l : list A) :
  find p (filter (fun x => negb (p x)) l) = None.
Proof.
  induction l as [|x l IH]; simpl; [reflexivity|].
  destruct (p x) eqn:E; simpl; [exact IH|]. rewrite E. exact IH.
Qed.

Lemma find_filter_keep {A : Type} (p q : A -> bool) (l : list A) :
  (forall x, p x = true -> q x = true) ->
  find p (filter q l) = find p l.
Proof.
  intros Hpq. induction l as [|x l IH]; simpl; [reflexivity|].
  destruct (q x) eqn:Eq; simpl.
  - destruct (p x); [reflexivity | exact IH].
  - destruct (p x) eqn:Ep; [|exact IH]. rewrite (Hpq x Ep) in Eq. discriminate.
Qed.

Lemma filter_twice {A : Type} (q : A -> bool) (l : list A) :
  filter q (filter q l) = filter q l.
Proof.
  induction l as [|x l IH]; simpl; [reflexivity|].
  destruct (q x) eqn:E; simpl; [rewrite E, IH; reflexivity | exact IH].
Qed.

Lemma ndb_delete_user_eq (u : NDBUserDatastore.NUser) (st : NDBUserDatastore.Store) :
  NDBUserDatastore.delete_user u st
  = match key u with
    | Some k =>
        (Ok tt,
         NDBUserDatastore.mkStore
           (filter (fun x => negb (key_eqb (key x) (Some k))) (NDBUserDatastore.users st))
           (NDBUserDatastore.roles st) (NDBUserDatastore.next_id st)
           (NDBUserDatastore.log st ++ [NDBUserDatastore.EvDelete k])
           (NDBUserDatastore.long_bound st))
    | None => (Raise AttributeError, st)
    end.
Proof.
  unfold NDBUserDatastore.delete_user, UserDatastore.delete_user. simpl.
  unfold NDBUserDatastore.delete, bind, getattr.
  destruct (key u); reflexivity.
Qed.

(** X5.  [delete_user] of the NDB backend.  A user that was never saved (no
    key) makes it raise [AttributeError], the store untouched.  Otherwise
    it returns nothing, removes exactly the stored users with that key and
    records one delete; the roles are untouched, a fetch of the deleted id
    then misses, every other id fetches what it did before, and deleting
    the same user again succeeds and removes nothing more. *)
Theorem ndb_delete_user_outcome (u : NDBUserDatastore.NUser) (st : NDBUserDatastore.Store) :
  (key u = None ->
   NDBUserDatastore.delete_user u st = (Raise AttributeError, st)) /\
  (forall k, key u = Some k ->
     exists st',
       NDBUserDatastore.delete_user u st = (Ok tt, st') /\
       (forall x, In x (NDBUserDatastore.users st')
                  <-> In x (NDBUserDatastore.users st) /\ key x <> Some k) /\
       NDBUserDatastore.roles st' = NDBUserDatastore.roles st /\
       NDBUserDatastore.log st'
       = NDBUserDatastore.log st ++ [NDBUserDatastore.EvDelete k] /\
       (forall i, k = IntId i ->
          NDBUserDatastore.get_user (PyLong i) st'
          = (Ok None, NDBUserDatastore.bind_long st')) /\
       (forall j, k <> IntId j ->
          NDBUserDatastore.get_by_id j st' = NDBUserDatastore.get_by_id j st) /\
       exists st'',
         NDBUserDatastore.delete_user u st' = (Ok tt, st'') /\
         NDBUserDatastore.users st'' = NDBUserDatastore.users st').
Proof.
  split.
  - intros Hk. rewrite ndb_delete_user_eq, Hk. reflexivity.
  - intros k Hk. eexists. split; [rewrite ndb_delete_user_eq, Hk; reflexivity|].
    cbn [NDBUserDatastore.users NDBUserDatastore.roles NDBUserDatastore.log].
    split; [|split; [reflexivity|split; [reflexivity|split; [|split]]]].
    + intros x. rewrite filter_In, negb_true_iff. split; intros [Hin Hx]; split; trivial.
      * intros Hc. apply key_eqb_some in Hc. congruence.
      * apply not_true_is_false. intros Hc. apply key_eqb_some in Hc. contradiction.
    + intros i ->. rewrite ndb_get_user_long.
      unfold NDBUserDatastore.get_by_id. cbn [NDBUserDatastore.users].
      rewrite (find_filter_out (fun x : NDBUserDatastore.NUser =>
                                  key_eqb (key x) (Some (IntId i)))).
      reflexivity.
    + intros j Hj. unfold NDBUserDatastore.get_by_id. cbn [NDBUserDatastore.users].
      apply find_filter_keep. intros x Hx. apply key_eqb_some in Hx.
      apply negb_true_iff, not_true_is_false. intros Hc. apply key_eqb_some in Hc.
      congruence.
    + eexists. split; [rewrite ndb_delete_user_eq, Hk; reflexivity|].
      cbn [NDBUserDatastore.users]. apply filter_twice.
Qed.

Lemma ndb_delete_user_outcome_witness :
  NDBUserDatastore.delete_user Sample.mbob_unsaved Sample.store
  = (Raise AttributeError, Sample.store) /\
  (exists st',
     NDBUserDatastore.delete_user Sample.bob Sample.store = (Ok tt, st') /\
     NDBUserDatastore.get_user (PyLong 7) st'
     = (Ok None, NDBUserDatastore.bind_long st') /\
     NDBUserDatastore.get_by_id 3 st' = Some Sample.alice).
Proof.
  split.
  - apply (ndb_delete_user_outcome Sample.mbob_unsaved Sample.store). reflexivity.
  - destruct (ndb_delete_user_outcome Sample.bob Sample.store) as [_ H].
    destruct (H (IntId 7) eq_refl) as (st' & Hdel & _ & _ & _ & Hgone & Hkeep & _).
    exists st'. split; [exact Hdel|]. split; [apply Hgone; reflexivity|].
    rewrite (Hkeep 3%Z); [reflexivity | discriminate].
Defined.

(** ** Email lookups and letter case *)

Lemma lower_ascii_idempotent (c : ascii) : lower_ascii (lower_ascii c) = lower_ascii c.
Proof. destruct c as [[] [] [] [] [] [] [] []]; reflexivity. Qed.

Lemma lower_idempotent (s : string) : lower (lower s) = lower s.
Proof.
  induction s as [|c s IH]; simpl; [reflexivity|].
  rewrite lower_ascii_idempotent, IH. reflexivity.
Qed.

Lemma ndb_find_user_by_email_eq (st : NDBUserDatastore.Store) (e : string)
  (id : option Z) :
  id = None \/ id = Some 0%Z ->
  NDBUserDatastore.find_user (Some e) id st
  = (Ok (if String.eqb e "" then None
         else NDBUserDatastore.query_email (lower e) st), st).
Proof.
  intros Hid. unfold NDBUserDatastore.find_user.
  assert (truthy_int id = false) as -> by (destruct Hid; subst; reflexivity).
  simpl. destruct (String.eqb e ""); reflexivity.
Qed.

(** X6.  Email lookups of the NDB backend lowercase the argument but not the
    stored address, so they return only users whose stored email is already
    lowercase.  A user stored with a capital letter in the email is never
    returned by [find_user(email=...)], whatever string is given; if
    [get_user] returns such a user for a string, it found the user by
    username. *)
Theorem ndb_email_lookup_finds_lowercase_only (st : NDBUserDatastore.Store) :
  (forall e id u,
     id = None \/ id = Some 0%Z ->
     NDBUserDatastore.find_user (Some e) id st = (Ok (Some u), st) ->
     email u = Some (lower e) /\ lower (lower e) = lower e) /\
  (forall u m,
     email u = Some m -> lower m <> m ->
     forall e id,
       id = None \/ id = Some 0%Z ->
       NDBUserDatastore.find_user (Some e) id st <> (Ok (Some u), st)) /\
  (forall u m,
     email u = Some m -> lower m <> m ->
     forall s,
       NDBUserDatastore.get_user (PyStr s) st
       = (Ok (Some u), NDBUserDatastore.bind_long st) ->
       username u = Some (lower s)).
Proof.
  assert (forall e u, NDBUserDatastore.query_email (lower e) st = Some u ->
                      forall m, email u = Some m -> lower m = m) as Hlow.
  { intros e u Hq m Hm. apply query_email_hit in Hq as [_ He].
    rewrite He in Hm. injection Hm as <-. apply lower_idempotent. }
  split; [|split].
  - intros e id u Hid H. rewrite (ndb_find_user_by_email_eq st e id Hid) in H.
    destruct (String.eqb e ""); [discriminate|].
    injection H as H. apply query_email_hit in H as [_ He].
    split; [exact He | apply lower_idempotent].
  - intros u m Hm Hne e id Hid H.
    rewrite (ndb_find_user_by_email_eq st e id Hid) in H.
    destruct (String.eqb e ""); [discriminate|].
    injection H as H. apply Hne. apply (Hlow e u H m Hm).
  - intros u m Hm Hne s H. rewrite ndb_get_user_str in H. injection H as H.
    destruct (NDBUserDatastore.query_email (lower s) st) as [v|] eqn:Hq.
    + injection H as ->. exfalso. apply Hne. apply (Hlow s u Hq m Hm).
    + apply query_username_hit in H as [_ Hn]. exact Hn.
Qed.

Lemma ndb_email_lookup_finds_lowercase_only_witness :
  NDBUserDatastore.find_user (Some "Carol@X.com") None Sample.store_carol
  <> (Ok (Some Sample.carol), Sample.store_carol) /\
  NDBUserDatastore.find_user (Some "carol@x.com") None Sample.store_carol
  <> (Ok (Some Sample.carol), Sample.store_carol) /\
  username Sample.carol = Some (lower "Carol").
Proof.
  destruct (ndb_email_lookup_finds_lowercase_only Sample.store_carol) as (_ & Hfind & Hget).
  split; [|split].
  - apply (Hfind Sample.carol "Carol@X.com" eq_refl); [discriminate | left; reflexivity].
  - apply (Hfind Sample.carol "Carol@X.com" eq_refl); [discriminate | left; reflexivity].
  - apply (Hget Sample.carol "Carol@X.com" eq_refl); [discriminate | reflexivity].
Defined.

(** X7.  [get_user] extends [find_user] in the NDB backend.  Whenever
    [find_user(email=s)] finds a user, [get_user(s)] returns that same
    user.  For a non-zero id, [find_user(id=i)] and [get_user(i)] are the
    same fetch once the module-level name [long] is bound, as it is after
    any [get_user] call.  When [get_user(s)] returns a user for a non-empty
    string that [find_user(email=s)] does not return, that user's username
    is the lowercased string. *)
Theorem ndb_get_user_extends_find_user (st : NDBUserDatastore.Store) :
  (forall s u,
     NDBUserDatastore.find_user (Some s) None st = (Ok (Some u), st) ->
     NDBUserDatastore.get_user (PyStr s) st
     = (Ok (Some u), NDBUserDatastore.bind_long st)) /\
  (forall i e,
     i <> 0%Z ->
     NDBUserDatastore.long_bound st = true ->
     NDBUserDatastore.find_user e (Some i) st = NDBUserDatastore.get_user (PyLong i) st) /\
  (forall i e x,
     i <> 0%Z ->
     NDBUserDatastore.find_user e (Some i) (snd (NDBUserDatastore.get_user x st))
     = NDBUserDatastore.get_user (PyLong i) st) /\
  (forall s u,
     s <> "" ->
     NDBUserDatastore.get_user (PyStr s) st
     = (Ok (Some u), NDBUserDatastore.bind_long st) ->
     NDBUserDatastore.find_user (Some s) None st = (Ok (Some u), st) \/
     (NDBUserDatastore.find_user (Some s) None st = (Ok None, st) /\
      username u = Some (lower s))).
Proof.
  split; [|split; [|split]].
  - intros s u H. rewrite (ndb_find_user_by_email_eq st s None (or_introl eq_refl)) in H.
    destruct (String.eqb s ""); [discriminate|]. injection H as H.
    rewrite ndb_get_user_str, H. reflexivity.
  - intros i e Hi Hb. rewrite (ndb_find_user_by_id_eq st e i Hi), Hb.
    rewrite ndb_get_user_long, (bind_long_bound st Hb). reflexivity.
  - intros i e x Hi.
    assert (snd (NDBUserDatastore.get_user x st) = NDBUserDatastore.bind_long st) as ->.
    { destruct x; [reflexivity | rewrite ndb_get_user_str; reflexivity | reflexivity]. }
    rewrite (ndb_find_user_by_id_eq _ e i Hi). reflexivity.
  - intros s u Hs H. rewrite (ndb_find_user_by_email_eq st s None (or_introl eq_refl)).
    apply String.eqb_neq in Hs. rewrite Hs.
    rewrite ndb_get_user_str in H. injection H as H.
    destruct (NDBUserDatastore.query_email (lower s) st) as [v|] eqn:Hq.
    + left. rewrite H. reflexivity.
    + right. split; [reflexivity|]. apply query_username_hit in H as [_ Hn]. exact Hn.
Qed.

Lemma ndb_get_user_extends_find_user_witness :
  NDBUserDatastore.get_user (PyStr "A@X.COM") Sample.store
  = (Ok (Some Sample.bob), NDBUserDatastore.bind_long Sample.store) /\
  NDBUserDatastore.find_user None (Some 7%Z) (NDBUserDatastore.bind_long Sample.store)
  = NDBUserDatastore.get_user (PyLong 7) (NDBUserDatastore.bind_long Sample.store) /\
  (NDBUserDatastore.find_user (Some "bob") None Sample.store
   = (Ok (Some Sample.bob), Sample.store) \/
   (NDBUserDatastore.find_user (Some "bob") None Sample.store = (Ok None, Sample.store) /\
    username Sample.bob = Some (lower "bob"))).
Proof.
  split; [|split].
  - destruct (ndb_get_user_extends_find_user Sample.store) as (Hfind & _).
    apply Hfind. reflexivity.
  - destruct (ndb_get_user_extends_find_user (NDBUserDatastore.bind_long Sample.store))
      as (_ & Hid & _).
    apply Hid; [discriminate | reflexivity].
  - destruct (ndb_get_user_extends_find_user Sample.store) as (_ & _ & _ & Hget).
    apply Hget; [discriminate | reflexivity].
Defined.

(** ** Keys of stored users *)

Lemma upsert_elements {E : Type} (key_of : E -> option key_id) (e y : E) (l : list E) :
  In y (NDBUserDatastore.upsert key_of e l) -> y = e \/ In y l.
Proof.
  induction l as [|x l IH]; simpl.
  - intros [<-|[]]. now left.
  - destruct (key_eqb (key_of x) (key_of e)); simpl.
    + intros [<-|H]; auto.
    + intros [<-|H]; auto. destruct (IH H); auto.
Qed.

Lemma key_eqb_true (a b : option key_id) : key_eqb a b = true -> a = b /\ a <> None.
Proof.
  destruct a as [x|], b as [y|]; simpl; try discriminate.
  intros H. apply key_id_eqb_eq in H. subst. split; congruence.
Qed.

Lemma key_eqb_same (a : option key_id) : a <> None -> key_eqb a a = true.
Proof.
  destruct a as [x|]; [|congruence]. intros _. apply key_id_eqb_refl.
Qed.

Lemma upsert_keyed (u : NDBUserDatastore.NUser) (l : list NDBUserDatastore.NUser) :
  key u <> None ->
  Forall (fun x : NDBUserDatastore.NUser => key x <> None) l ->
  NoDup (map key l) ->
  Forall (fun x : NDBUserDatastore.NUser => key x <> None)
         (NDBUserDatastore.upsert key u l) /\
  NoDup (map key (NDBUserDatastore.upsert key u l)).
Proof.
  intros Hu. induction l as [|x l IH]; simpl; intros Hall Hnd.
  - split; [constructor; [exact Hu | constructor] | constructor; [intros [] | constructor]].
  - inversion Hall as [|? ? Hx Hall']; subst. inversion Hnd as [|? ? Hnin Hnd']; subst.
    destruct (key_eqb (key x) (key u)) eqn:E; simpl.
    + apply key_eqb_true in E as [E _]. rewrite <- E.
      split; [constructor; [rewrite <- E; exact Hx | exact Hall'] | exact Hnd].
    + destruct (IH Hall' Hnd') as [IHall IHnd].
      split; [constructor; assumption|].
      constructor; [|exact IHnd].
      intros Hin. apply in_map_iff in Hin as [y [Hy Hin]].
      apply upsert_elements in Hin as [->|Hin].
      * rewrite Hy, (key_eqb_same _ Hx) in E. discriminate.
      * apply Hnin. apply in_map_iff. exists y. split; assumption.
Qed.

Lemma filter_keyed (q : NDBUserDatastore.NUser -> bool) (l : list NDBUserDatastore.NUser) :
  Forall (fun x : NDBUserDatastore.NUser => key x <> None) l ->
  NoDup (map key l) ->
  Forall (fun x : NDBUserDatastore.NUser => key x <> None) (filter q l) /\
  NoDup (map key (filter q l)).
Proof.
  induction l as [|x l IH]; simpl; intros Hall Hnd; [split; assumption|].
  inversion Hall as [|? ? Hx Hall']; subst. inversion Hnd as [|? ? Hnin Hnd']; subst.
  destruct (IH Hall' Hnd') as [IHall IHnd].
  destruct (q x); simpl; [|split; assumption].
  split; [constructor; assumption|]. constructor; [|exact IHnd].
  intros Hin. apply Hnin. apply in_map_iff in Hin as [y [Hy Hin]].
  apply filter_In in Hin as [Hin _]. apply in_map_iff. exists y. split; assumption.
Qed.

Lemma user_put_keyed (u : NDBUserDatastore.NUser) (st : NDBUserDatastore.Store) :
  users_keyed st -> users_keyed (snd (NDBUserDatastore.user_put u st)).
Proof.
  unfold users_keyed, NDBUserDatastore.user_put. intros [Hall Hnd].
  destruct (key u) as [k|] eqn:Hk; simpl; apply upsert_keyed; trivial.
  - rewrite Hk. discriminate.
  - simpl. discriminate.
Qed.

Lemma returning_snd {W A B : Type} (b : B) (r : result A * W) :
  snd (returning b r) = snd r.
Proof. destruct r as [[a|e] w]; reflexivity. Qed.

Lemma role_put_users (r : NDBUserDatastore.Role) (st : NDBUserDatastore.Store) :
  NDBUserDatastore.users (snd (NDBUserDatastore.role_put r st)) = NDBUserDatastore.users st.
Proof.
  unfold NDBUserDatastore.role_put. destruct (NDBUserDatastore.role_key r); reflexivity.
Qed.

Lemma users_keyed_same_users (st st' : NDBUserDatastore.Store) :
  NDBUserDatastore.users st' = NDBUserDatastore.users st ->
  users_keyed st -> users_keyed st'.
Proof. unfold users_keyed. intros ->. trivial. Qed.

(** One call of any public operation keeps the stored users keyed. *)
Lemma ndb_op_keeps_users_keyed (op : ndb_op) (st : NDBUserDatastore.Store) :
  users_keyed st -> users_keyed (ndb_store_after op st).
Proof.
  intros Hst.
  destruct op as [x|e i|n|kwargs|n kwargs|kwargs|u|user role|user role|u|u|u];
    cbn [ndb_store_after].
  - apply (users_keyed_same_users st); [|exact Hst].
    destruct x; [reflexivity | rewrite ndb_get_user_str; reflexivity | reflexivity].
  - unfold NDBUserDatastore.find_user.
    destruct (truthy_int i).
    + destruct i; [|exact Hst]. unfold bind, gets.
      destruct (NDBUserDatastore.long_bound st); exact Hst.
    + destruct (truthy_str e); [destruct e; exact Hst | exact Hst].
  - exact Hst.
  - apply (users_keyed_same_users st); [|exact Hst]. apply role_put_users.
  - rewrite ndb_find_or_create_role_eq.
    destruct (NDBUserDatastore.query_role_name n st); [exact Hst|].
    apply (users_keyed_same_users st); [|exact Hst]. apply role_put_users.
  - rewrite ndb_create_user_eq. destruct (forallb _ _); [|exact Hst].
    apply user_put_keyed. exact Hst.
  - rewrite ndb_delete_user_eq. destruct (key u); [|exact Hst].
    destruct Hst as [Hall Hnd]. apply filter_keyed; assumption.
  - rewrite ndb_add_role_to_user_eq.
    destruct (resolved_role role st); [|exact Hst].
    destruct (resolved_user user st); [|exact Hst].
    destruct (py_in _ _); [exact Hst|].
    rewrite returning_snd. apply user_put_keyed. exact Hst.
  - rewrite ndb_remove_role_from_user_eq.
    destruct (resolved_role role st); [|exact Hst].
    destruct (resolved_user user st); [|exact Hst].
    destruct (py_remove _ _); [|exact Hst].
    rewrite returning_snd. apply user_put_keyed. exact Hst.
  - exact Hst.
  - unfold NDBUserDatastore.activate_user, UserDatastore.activate_user.
    destruct (active u); exact Hst.
  - unfold NDBUserDatastore.deactivate_user, UserDatastore.deactivate_user.
    destruct (active u); exact Hst.
Qed.

Lemma keyed_fetch (l : list NDBUserDatastore.NUser) (u : NDBUserDatastore.NUser)
  (k : key_id) :
  NoDup (map key l) -> In u l -> key u = Some k ->
  find (fun x => key_eqb (key x) (Some k)) l = Some u.
Proof.
  induction l as [|x l IH]; simpl; intros Hnd Hin Hk; [contradiction|].
  inversion Hnd as [|? ? Hnin Hnd']; subst.
  destruct (key_eqb (key x) (Some k)) eqn:E.
  - destruct Hin as [->|Hin]; [reflexivity|]. exfalso. apply Hnin.
    apply key_eqb_some in E. rewrite E, <- Hk. apply in_map. exact Hin.
  - destruct Hin as [->|Hin]; [|apply IH; assumption].
    rewrite Hk in E. simpl in E. rewrite key_id_eqb_refl in E. discriminate.
Qed.

(** X8.  The NDB backend never stores two users under one key.  If every
    stored user has a key and no two share one, the same holds after any
    sequence of public operations, whether they return or raise; this is so
    in particular for every store reached from the empty one.  In such a
    store a fetch by id returns the one stored user with that id. *)
Theorem ndb_user_keys_stay_unique (ops : list ndb_op) (st : NDBUserDatastore.Store) :
  users_keyed st ->
  users_keyed (ndb_store_after_all ops st) /\
  (forall u i,
     In u (NDBUserDatastore.users (ndb_store_after_all ops st)) ->
     key u = Some (IntId i) ->
     NDBUserDatastore.get_by_id i (ndb_store_after_all ops st) = Some u).
Proof.
  intros Hst.
  assert (users_keyed (ndb_store_after_all ops st)) as Hafter.
  { revert st Hst. induction ops as [|op ops IH]; intros st Hst; simpl; [exact Hst|].
    apply IH. apply ndb_op_keeps_users_keyed. exact Hst. }
  split; [exact Hafter|].
  intros u i Hin Hk. destruct Hafter as [_ Hnd].
  unfold NDBUserDatastore.get_by_id. apply keyed_fetch; assumption.
Qed.

Lemma ndb_user_keys_stay_unique_witness :
  users_keyed
    (ndb_store_after_all
       [OpFindOrCreateRole "admin" (mkRoleKw "" None);
        OpCreateUser (mkUserKw (Some "a@x.com") None None None (Some [Str "admin"]));
        OpCreateUser (mkUserKw (Some "b@x.com") None None None None);
        OpAddRole (Str "b@x.com") (Str "admin");
        OpAddRole (Str "nobody@x.com") (Str "admin");
        OpDeleteUser Sample.bob]
       Sample.empty_store).
Proof.
  apply ndb_user_keys_stay_unique.
  split; [constructor | constructor].
Defined.

(** ** The abstract base classes *)

Lemma mapM_raise {W A B : Type} (e : exn) (l : list A) (w : W) :
  mapM (fun _ : A => @raise W B e) l w
  = match l with
    | [] => (Ok [], w)
    | _ :: _ => (Raise e, w)
    end.
Proof. destruct l; reflexivity. Qed.

(** X9.  On the base classes alone, where [find_user], [find_role], [put]
    and [delete] raise [NotImplementedError], every operation that has to
    look something up or persist raises [NotImplementedError] and leaves
    the backend state as it was: [create_role], [find_or_create_role],
    [create_user] (with or without roles), [delete_user], and
    [add_role_to_user] / [remove_role_from_user] with a string argument or
    with a change to persist.  Only the calls that need no backend method
    return: adding a role the user instance already has, or removing one it
    does not have, returns false. *)
Theorem abstract_datastore_not_implemented
  (W R : Type) (RM : RoleModel R) (RE : RoleEq R) (w : W) :
  (forall kwargs,
     UserDatastore.create_role (B := abstract_backend W (list (option R)) R) kwargs w
     = (Raise NotImplementedError, w)) /\
  (forall n kwargs,
     UserDatastore.find_or_create_role (B := abstract_backend W (list (option R)) R)
       n kwargs w
     = (Raise NotImplementedError, w)) /\
  (forall kwargs,
     UserDatastore.create_user (B := abstract_backend W (list (option R)) R) kwargs w
     = (Raise NotImplementedError, w)) /\
  (forall u,
     UserDatastore.delete_user (B := abstract_backend W (list (option R)) R) u w
     = (Raise NotImplementedError, w)) /\
  (forall e role,
     UserDatastore.add_role_to_user (B := abstract_backend W (list (option R)) R)
       (Str e) role w
     = (Raise NotImplementedError, w) /\
     UserDatastore.remove_role_from_user (B := abstract_backend W (list (option R)) R)
       (Str e) role w
     = (Raise NotImplementedError, w)) /\
  (forall u n,
     UserDatastore.add_role_to_user (B := abstract_backend W (list (option R)) R)
       (Inst u) (Str n) w
     = (Raise NotImplementedError, w) /\
     UserDatastore.remove_role_from_user (B := abstract_backend W (list (option R)) R)
       (Inst u) (Str n) w
     = (Raise NotImplementedError, w)) /\
  (forall u r,
     UserDatastore.add_role_to_user (B := abstract_backend W (list (option R)) R)
       (Inst u) (Inst r) w
     = (if py_in (UserDatastore.ref_eqb (Some r)) (UserDatastore.roles u)
        then (Ok (false, u), w)
        else (Raise NotImplementedError, w)) /\
     UserDatastore.remove_role_from_user (B := abstract_backend W (list (option R)) R)
       (Inst u) (Inst r) w
     = (if py_in (UserDatastore.ref_eqb (Some r)) (UserDatastore.roles u)
        then (Raise NotImplementedError, w)
        else (Ok (false, u), w))).
Proof.
  repeat match goal with |- _ /\ _ => split end; try reflexivity.
  - intros kwargs. unfold UserDatastore.create_user, UserDatastore._prepare_create_user_args.
    unfold bind at 1. unfold bind at 1.
    rewrite (mapM_ext _ (fun _ : str_or R => @raise W (option R) NotImplementedError))
      by reflexivity.
    rewrite mapM_raise. destruct (kw_roles kwargs) as [[|role l]|]; reflexivity.
  - intros e role. split; destruct role; reflexivity.
  - intros u n. split; reflexivity.
  - intros u r.
    rewrite (add_role_to_user_eq _ _ _ _ _ _ (prepare_instances u r w)).
    rewrite (remove_role_from_user_eq _ _ _ _ _ _ (prepare_instances u r w)).
    destruct (py_in (UserDatastore.ref_eqb (Some r)) (UserDatastore.roles u)) eqn:Hin.
    + destruct (py_remove_present _ _ Hin) as (l & -> & _). split; reflexivity.
    + rewrite (py_remove_absent _ _ Hin). split; reflexivity.
Qed.

(** ** [has_role] after adding and removing *)

Lemma py_in_app_other (n n' : string) (l : list string) :
  n' <> n -> py_in (String.eqb n') (l ++ [n]) = py_in (String.eqb n') l.
Proof.
  intros Hne. unfold py_in. rewrite existsb_app. simpl.
  apply String.eqb_neq in Hne. rewrite Hne. rewrite !orb_false_r. reflexivity.
Qed.

Lemma py_remove_other (n n' : string) (l l' : list string) :
  n' <> n -> py_remove (String.eqb n) l = Some l' ->
  py_in (String.eqb n') l' = py_in (String.eqb n') l.
Proof.
  intros Hne. unfold py_in. revert l'. induction l as [|x l IH]; simpl; intros l' H.
  - discriminate.
  - destruct (String.eqb n x) eqn:E.
    + injection H as <-. apply String.eqb_eq in E. subst x.
      apply String.eqb_neq in Hne. rewrite Hne. reflexivity.
    + destruct (py_remove (String.eqb n) l) as [r|]; [|discriminate].
      injection H as <-. simpl. rewrite (IH r eq_refl). reflexivity.
Qed.

Lemma has_role_py_in (u : NDBUserDatastore.NUser) (n : string) :
  NDBUserDatastore.has_role u n = py_in (String.eqb n) (NDBUserDatastore.role_names u).
Proof. unfold NDBUserDatastore.has_role. destruct (py_in _ _); reflexivity. Qed.

(** X10.  [has_role] of the NDB user follows the role operations.  For
    resolved arguments, [add_role_to_user] returns the negation of
    [has_role] before the call and [has_role] holds afterwards;
    [remove_role_from_user] returns [has_role] before the call, and when the
    role names had no repetition [has_role] fails afterwards.  Neither
    operation changes [has_role] for any other role name. *)
Theorem ndb_has_role_follows_role_operations :
  forall (st : NDBUserDatastore.Store) user role u r,
    resolved_user user st = Some u ->
    resolved_role role st = Some r ->
    (exists b u' st',
       NDBUserDatastore.add_role_to_user user role st = (Ok (b, u'), st') /\
       b = negb (NDBUserDatastore.has_role u (NDBUserDatastore.name r)) /\
       NDBUserDatastore.has_role u' (NDBUserDatastore.name r) = true /\
       forall n, n <> NDBUserDatastore.name r ->
                 NDBUserDatastore.has_role u' n = NDBUserDatastore.has_role u n) /\
    (exists b u' st',
       NDBUserDatastore.remove_role_from_user user role st = (Ok (b, u'), st') /\
       b = NDBUserDatastore.has_role u (NDBUserDatastore.name r) /\
       (NoDup (NDBUserDatastore.role_names u) ->
        NDBUserDatastore.has_role u' (NDBUserDatastore.name r) = false) /\
       forall n, n <> NDBUserDatastore.name r ->
                 NDBUserDatastore.has_role u' n = NDBUserDatastore.has_role u n).
Proof.
  intros st user role u r Hu Hr. split.
  - rewrite ndb_add_role_to_user_eq, Hu, Hr.
    destruct (py_in (String.eqb (NDBUserDatastore.name r)) (NDBUserDatastore.role_names u))
      eqn:Hin.
    + exists false, u, st. rewrite !has_role_py_in, Hin. repeat split.
    + destruct (user_put_spec
                  (set_membership
                     (NDBUserDatastore.role_names u ++ [NDBUserDatastore.name r]) u) st)
        as (k & st1 & Hput & _).
      rewrite Hput. eexists true, _, st1. split; [reflexivity|].
      rewrite !has_role_py_in, Hin. split; [reflexivity|].
      unfold NDBUserDatastore.role_names. cbn [membership set_key set_membership].
      split.
      * unfold py_in. rewrite existsb_app. simpl. rewrite String.eqb_refl.
        apply orb_true_r.
      * intros n Hn. rewrite !has_role_py_in.
        unfold NDBUserDatastore.role_names. cbn [membership set_key set_membership].
        apply py_in_app_other. exact Hn.
  - rewrite ndb_remove_role_from_user_eq, Hu, Hr.
    destruct (py_in (String.eqb (NDBUserDatastore.name r)) (NDBUserDatastore.role_names u))
      eqn:Hin.
    + destruct (py_remove_present _ _ Hin) as (names & Hrm & Hocc & _). rewrite Hrm.
      destruct (user_put_spec (set_membership names u) st) as (k & st1 & Hput & _).
      rewrite Hput. eexists true, _, st1. split; [reflexivity|].
      rewrite !has_role_py_in, Hin. split; [reflexivity|].
      unfold NDBUserDatastore.role_names. cbn [membership set_key set_membership].
      split.
      * intros Hnd. apply names_at_most_once_NoDup in Hnd.
        specialize (Hnd (NDBUserDatastore.name r)).
        apply not_true_is_false. intros Hstill.
        apply occurrences_present in Hstill.
        unfold NDBUserDatastore.role_names in Hocc. lia.
      * intros n Hn. rewrite !has_role_py_in.
        unfold NDBUserDatastore.role_names. cbn [membership set_key set_membership].
        apply (py_remove_other _ _ _ _ Hn Hrm).
    + rewrite (py_remove_absent _ _ Hin). exists false, u, st.
      rewrite !has_role_py_in, Hin. repeat split.
Qed.

Lemma ndb_has_role_follows_role_operations_witness :
  (exists b u' st',
     NDBUserDatastore.add_role_to_user (Inst Sample.alice) (Str "admin") Sample.store
     = (Ok (b, u'), st') /\
     b = negb (NDBUserDatastore.has_role Sample.alice "admin") /\
     NDBUserDatastore.has_role u' "admin" = true /\
     forall n, n <> "admin" ->
               NDBUserDatastore.has_role u' n = NDBUserDatastore.has_role Sample.alice n).
Proof.
  apply (ndb_has_role_follows_role_operations Sample.store (Inst Sample.alice)
           (Str "admin") Sample.alice Sample.admin eq_refl eq_refl).
Defined.

(** ** [create_role] on a name in use *)

Lemma upsert_again {E : Type} (key_of : E -> option key_id) (p : E -> bool)
  (e1 e2 : E) (l : list E) :
  key_of e1 <> None -> key_of e2 = key_of e1 ->
  py_in p l = false -> p e2 = true ->
  find p (NDBUserDatastore.upsert key_of e2 (NDBUserDatastore.upsert key_of e1 l)) = Some e2 /\
  occurrences p (NDBUserDatastore.upsert key_of e2 (NDBUserDatastore.upsert key_of e1 l))
  = 1%nat /\
  List.length (NDBUserDatastore.upsert key_of e2 (NDBUserDatastore.upsert key_of e1 l))
  = List.length (NDBUserDatastore.upsert key_of e1 l).
Proof.
  intros Hk1 Hk Hl H2. unfold py_in, occurrences in *.
  induction l as [|x l IH]; simpl.
  - rewrite Hk, (key_eqb_same _ Hk1). simpl. rewrite H2. repeat split.
  - simpl in Hl. apply orb_false_iff in Hl as [Hx Hl].
    destruct (key_eqb (key_of x) (key_of e1)) eqn:Ek; simpl.
    + rewrite Hk, (key_eqb_same _ Hk1). simpl. rewrite H2.
      split; [reflexivity|]. split; [|reflexivity].
      simpl. f_equal. fold (occurrences p l). apply occurrences_absent. exact Hl.
    + rewrite Hk, Ek. simpl. rewrite Hx.
      destruct (IH Hl) as (Hf & Ho & Hlen). split; [exact Hf|]. split; [exact Ho|].
      f_equal. exact Hlen.
Qed.

Lemma ndb_create_role_eq (kwargs : RoleKw) (st : NDBUserDatastore.Store) :
  kw_name kwargs <> "" ->
  NDBUserDatastore.create_role kwargs st
  = (Ok (NDBUserDatastore.mkRole (Some (StrId (kw_name kwargs))) (kw_name kwargs)
                                 (kw_description kwargs)),
     NDBUserDatastore.mkStore
       (NDBUserDatastore.users st)
       (NDBUserDatastore.upsert NDBUserDatastore.role_key
          (NDBUserDatastore.mkRole (Some (StrId (kw_name kwargs))) (kw_name kwargs)
                                   (kw_description kwargs))
          (NDBUserDatastore.roles st))
       (NDBUserDatastore.next_id st)
       (NDBUserDatastore.log st
        ++ [NDBUserDatastore.EvPutRole (StrId (kw_name kwargs))])
       (NDBUserDatastore.long_bound st)).
Proof.
  intros Hn. apply String.eqb_neq in Hn.
  unfold NDBUserDatastore.create_role, UserDatastore.create_role. simpl.
  unfold NDBUserDatastore.put_role, NDBUserDatastore.role_put, NDBUserDatastore.Role_init.
  simpl. rewrite Hn. reflexivity.
Qed.

(** X11.  [create_role] does not look for an existing role.  In the NDB
    backend, where a role with a non-empty name is keyed by that name, two
    [create_role] calls with the same name, on a store that had no role of
    that name, leave one stored role of that name, and it carries the
    attributes of the second call: the second call overwrites the first
    role instead of adding one or failing.  [find_role] then returns the
    second role. *)
Theorem ndb_create_role_overwrites_same_name
  (st : NDBUserDatastore.Store) (kw1 kw2 : RoleKw) :
  kw_name kw1 <> "" ->
  kw_name kw2 = kw_name kw1 ->
  NDBUserDatastore.find_role (kw_name kw1) st = (Ok None, st) ->
  exists r1 st1 r2 st2,
    NDBUserDatastore.create_role kw1 st = (Ok r1, st1) /\
    NDBUserDatastore.create_role kw2 st1 = (Ok r2, st2) /\
    NDBUserDatastore.name r2 = kw_name kw1 /\
    NDBUserDatastore.description r2 = kw_description kw2 /\
    NDBUserDatastore.find_role (kw_name kw1) st2 = (Ok (Some r2), st2) /\
    roles_named (kw_name kw1) st2 = 1%nat /\
    List.length (NDBUserDatastore.roles st2) = List.length (NDBUserDatastore.roles st1).
Proof.
  intros Hn Hsame Hnone.
  assert (kw_name kw2 <> "") as Hn2 by (rewrite Hsame; exact Hn).
  assert (py_in (fun r => String.eqb (NDBUserDatastore.name r) (kw_name kw1))
                (NDBUserDatastore.roles st) = false) as Hp.
  { unfold NDBUserDatastore.find_role, gets in Hnone. injection Hnone as Hq.
    unfold py_in. apply not_true_is_false. intros Hex.
    apply existsb_exists in Hex as [x [Hx Hxn]].
    unfold NDBUserDatastore.query_role_name in Hq.
    apply (find_none _ _ Hq) in Hx. congruence. }
  eexists _, _, _, _.
  split; [apply (ndb_create_role_eq kw1 st Hn)|].
  split; [apply (ndb_create_role_eq kw2 _ Hn2)|].
  cbn [NDBUserDatastore.name NDBUserDatastore.description NDBUserDatastore.roles].
  split; [exact Hsame|]. split; [reflexivity|].
  destruct (upsert_again NDBUserDatastore.role_key
              (fun r => String.eqb (NDBUserDatastore.name r) (kw_name kw1))
              (NDBUserDatastore.mkRole (Some (StrId (kw_name kw1))) (kw_name kw1)
                                       (kw_description kw1))
              (NDBUserDatastore.mkRole (Some (StrId (kw_name kw2))) (kw_name kw2)
                                       (kw_description kw2))
              (NDBUserDatastore.roles st))
    as (Hfind & Hocc & Hlen).
  - simpl. discriminate.
  - simpl. rewrite Hsame. reflexivity.
  - exact Hp.
  - simpl. rewrite Hsame. apply String.eqb_refl.
  - split; [|split; [|exact Hlen]].
    + unfold NDBUserDatastore.find_role, gets, NDBUserDatastore.query_role_name.
      cbn [NDBUserDatastore.roles]. rewrite Hfind. reflexivity.
    + unfold roles_named. cbn [NDBUserDatastore.roles]. exact Hocc.
Qed.

Lemma ndb_create_role_overwrites_same_name_witness :
  exists r1 st1 r2 st2,
    NDBUserDatastore.create_role Sample.editor_kw Sample.store = (Ok r1, st1) /\
    NDBUserDatastore.create_role (mkRoleKw "editor" None) st1 = (Ok r2, st2) /\
    NDBUserDatastore.name r2 = "editor" /\
    NDBUserDatastore.description r2 = None /\
    NDBUserDatastore.find_role "editor" st2 = (Ok (Some r2), st2) /\
    roles_named "editor" st2 = 1%nat /\
    List.length (NDBUserDatastore.roles st2) = List.length (NDBUserDatastore.roles st1).
Proof.
  apply (ndb_create_role_overwrites_same_name Sample.store Sample.editor_kw
           (mkRoleKw "editor" None)).
  - discriminate.
  - reflexivity.
  - reflexivity.
Defined.

(** ** [find_user] by id and the name [long] *)

Lemma user_put_long_bound (u : NDBUserDatastore.NUser) (st : NDBUserDatastore.Store) :
  NDBUserDatastore.long_bound (snd (NDBUserDatastore.user_put u st))
  = NDBUserDatastore.long_bound st.
Proof. unfold NDBUserDatastore.user_put. destruct (key u); reflexivity. Qed.

Lemma role_put_long_bound (r : NDBUserDatastore.Role) (st : NDBUserDatastore.Store) :
  NDBUserDatastore.long_bound (snd (NDBUserDatastore.role_put r st))
  = NDBUserDatastore.long_bound st.
Proof.
  unfold NDBUserDatastore.role_put. destruct (NDBUserDatastore.role_key r); reflexivity.
Qed.

(** Only [get_user] binds the name [long]; no operation unbinds it. *)
Lemma ndb_op_long_bound (op : ndb_op) (st : NDBUserDatastore.Store) :
  NDBUserDatastore.long_bound (ndb_store_after op st)
  = match op with
    | OpGetUser _ => true
    | _ => NDBUserDatastore.long_bound st
    end.
Proof.
  destruct op as [x|e i|n|kwargs|n kwargs|kwargs|u|user role|user role|u|u|u];
    cbn [ndb_store_after].
  - destruct x; [reflexivity | rewrite ndb_get_user_str; reflexivity | reflexivity].
  - unfold NDBUserDatastore.find_user.
    destruct (truthy_int i).
    + destruct i; [|reflexivity]. unfold bind, gets.
      destruct (NDBUserDatastore.long_bound st) eqn:Hb; simpl; [exact Hb | exact Hb].
    + destruct (truthy_str e); [destruct e; reflexivity | reflexivity].
  - reflexivity.
  - apply role_put_long_bound.
  - rewrite ndb_find_or_create_role_eq.
    destruct (NDBUserDatastore.query_role_name n st); [reflexivity|].
    apply role_put_long_bound.
  - rewrite ndb_create_user_eq. destruct (forallb _ _); [|reflexivity].
    apply user_put_long_bound.
  - rewrite ndb_delete_user_eq. destruct (key u); reflexivity.
  - rewrite ndb_add_role_to_user_eq.
    destruct (resolved_role role st); [|reflexivity].
    destruct (resolved_user user st); [|reflexivity].
    destruct (py_in _ _); [reflexivity|].
    rewrite returning_snd. apply user_put_long_bound.
  - rewrite ndb_remove_role_from_user_eq.
    destruct (resolved_role role st); [|reflexivity].
    destruct (resolved_user user st); [|reflexivity].
    destruct (py_remove _ _); [|reflexivity].
    rewrite returning_snd. apply user_put_long_bound.
  - reflexivity.
  - unfold NDBUserDatastore.activate_user, UserDatastore.activate_user.
    destruct (active u); reflexivity.
  - unfold NDBUserDatastore.deactivate_user, UserDatastore.deactivate_user.
    destruct (active u); reflexivity.
Qed.

(** X12.  Where [long] is not a built-in name, [find_user] with a non-zero
    id works only after [get_user] has been called.  Starting from a state
    in which the name is not bound, after any sequence of public operations
    none of which is [get_user], [find_user(id=i)] raises [NameError] and
    fetches nothing.  After any [get_user] call, and whatever operations
    follow it, the name is bound and [find_user(id=i)] is the primary-key
    fetch. *)
Theorem ndb_find_user_by_id_needs_get_user
  (st : NDBUserDatastore.Store) (e : option string) (i : Z) :
  i <> 0%Z ->
  (forall ops,
     NDBUserDatastore.long_bound st = false ->
     (forall x, ~ In (OpGetUser x) ops) ->
     NDBUserDatastore.find_user e (Some i) (ndb_store_after_all ops st)
     = (Raise NameError, ndb_store_after_all ops st)) /\
  (forall x ops,
     NDBUserDatastore.find_user e (Some i)
       (ndb_store_after_all (OpGetUser x :: ops) st)
     = (Ok (NDBUserDatastore.get_by_id i (ndb_store_after_all (OpGetUser x :: ops) st)),
        ndb_store_after_all (OpGetUser x :: ops) st)).
Proof.
  intros Hi. split.
  - intros ops Hb Hno. rewrite (ndb_find_user_by_id_eq _ e i Hi).
    assert (NDBUserDatastore.long_bound (ndb_store_after_all ops st) = false) as ->;
      [|reflexivity].
    revert st Hb. induction ops as [|op ops IH]; intros st Hb; simpl; [exact Hb|].
    apply IH.
    + intros x Hx. apply (Hno x). now right.
    + rewrite ndb_op_long_bound. destruct op; try exact Hb.
      exfalso. apply (Hno x). now left.
  - intros x ops. rewrite (ndb_find_user_by_id_eq _ e i Hi).
    assert (NDBUserDatastore.long_bound (ndb_store_after_all (OpGetUser x :: ops) st)
            = true) as ->; [|reflexivity].
    cbn [ndb_store_after_all].
    assert (NDBUserDatastore.long_bound (ndb_store_after (OpGetUser x) st) = true) as Hb
      by (rewrite ndb_op_long_bound; reflexivity).
    revert Hb. generalize (ndb_store_after (OpGetUser x) st). clear st.
    induction ops as [|op ops IH]; intros st Hb; simpl; [exact Hb|].
    apply IH. rewrite ndb_op_long_bound. destruct op; try exact Hb. reflexivity.
Qed.

Lemma ndb_find_user_by_id_needs_get_user_witness :
  NDBUserDatastore.find_user None (Some 7%Z)
    (ndb_store_after_all
       [OpFindUser (Some "a@x.com") None; OpAddRole (Str "a@x.com") (Str "admin")]
       Sample.store)
  = (Raise NameError,
     ndb_store_after_all
       [OpFindUser (Some "a@x.com") None; OpAddRole (Str "a@x.com") (Str "admin")]
       Sample.store).
Proof.
  destruct (ndb_find_user_by_id_needs_get_user Sample.store None 7%Z) as [Hbefore _].
  - discriminate.
  - apply Hbefore; [reflexivity|].
    intros x [H|[H|[]]]; discriminate.
Defined.
